(** * Job tracking and stuck-job recovery in FamFlix's maintenance scripts

    A shallow embedding of the SQLite scripts that inspect and repair the
    [story_audio] and [story_narrations] tables:
    - [recover_audio.py]        (force-complete of one section's job),
    - [reset_stuck_audio.py]    (force-fail of a story's stuck jobs),
    - [check_story_audio.py]    (per-story listing of audio jobs),
    - [check_story_narrations.py] (per-story listing of narration chunks).

    Tables are lists of row records in storage order; an SQL [UPDATE ... WHERE]
    is a [map] over the table; [fetchone] returns the first matching row in
    storage order.  Each script call of [time.time()] is an explicit argument
    (or, in a loop, a clock indexed by the iteration). *)

From Stdlib Require Import String List ZArith Lia Bool Sorted Permutation.
Import ListNotations.
Open Scope Z_scope.

(** ** Data model *)

Inductive status := PENDING | PROCESSING | COMPLETE | ERROR.

Definition status_eqb (a b : status) : bool :=
  match a, b with
  | PENDING, PENDING | PROCESSING, PROCESSING
  | COMPLETE, COMPLETE | ERROR, ERROR => true
  | _, _ => false
  end.

Lemma status_eqb_eq a b : status_eqb a b = true <-> a = b.
Proof. destruct a, b; simpl; split; congruence. Qed.

(** One row of [story_audio]. *)
Record story_audio_row := {
  sa_section_id : string;
  sa_voice_id : string;
  sa_status : status;
  sa_audio_url : option string;
  sa_error : option string;
  sa_created_at : Z;
  sa_updated_at : Z;
  sa_completed_at : option Z
}.

(** One row of [story_sections]. *)
Record story_section_row := {
  ss_id : string;
  ss_story_id : string;
  ss_section_index : Z
}.

(** One row of [story_narrations], with a field for each column a script
    names.  Which columns the table has is a separate list: a query naming a
    column the table lacks fails before any value is read, so the field of
    such a column is never used. *)
Record story_narration_row := {
  sn_id : string;
  sn_story_id : string;
  sn_chunk_index : Z;
  sn_section_index : Z;
  sn_status : status;
  sn_audio_url : option string;
  sn_error : option string;
  sn_created_at : Z;
  sn_updated_at : Z
}.

Record db := {
  story_audio : list story_audio_row;
  story_sections : list story_section_row;
  story_narrations : list story_narration_row
}.

Definition with_story_audio (d : db) (rows : list story_audio_row) : db :=
  {| story_audio := rows;
     story_sections := story_sections d;
     story_narrations := story_narrations d |}.

(** The job key [(section_id, voice_id)] of a [story_audio] row. *)
Definition sa_key (r : story_audio_row) : string * string :=
  (sa_section_id r, sa_voice_id r).

Definition key_eqb (k1 k2 : string * string) : bool :=
  String.eqb (fst k1) (fst k2) && String.eqb (snd k1) (snd k2).

(** ** recover_audio.py (force-complete) *)

(** [SELECT voice_id FROM story_audio WHERE section_id = ? AND
    status = 'PROCESSING'] followed by [fetchone()]. *)
Definition processing_in_section (section_id : string) (r : story_audio_row)
  : bool :=
  String.eqb (sa_section_id r) section_id && status_eqb (sa_status r) PROCESSING.

Definition recover_select (section_id : string) (rows : list story_audio_row)
  : option string :=
  match find (processing_in_section section_id) rows with
  | Some r => Some (sa_voice_id r)
  | None => None
  end.

(** The row rewrite of [UPDATE story_audio SET status = 'COMPLETE',
    audio_url = ?, updated_at = ?, completed_at = ?]. *)
Definition recover_row (audio_url : string) (now : Z) (r : story_audio_row)
  : story_audio_row :=
  {| sa_section_id := sa_section_id r;
     sa_voice_id := sa_voice_id r;
     sa_status := COMPLETE;
     sa_audio_url := Some audio_url;
     sa_error := sa_error r;
     sa_created_at := sa_created_at r;
     sa_updated_at := now;
     sa_completed_at := Some now |}.

(** The whole statement, [... WHERE section_id = ? AND voice_id = ?]. *)
Definition recover_update (audio_url : string) (now : Z)
  (section_id voice_id : string) (rows : list story_audio_row)
  : list story_audio_row :=
  map (fun r => if key_eqb (sa_key r) (section_id, voice_id)
                then recover_row audio_url now r else r) rows.

(** What the script prints. *)
Inductive recover_report :=
| NoProcessingEntry          (* "No processing entry found for this section." *)
| Recovered (voice_id : string).  (* "Updated section ... to COMPLETE" *)

(** [audio_url = f'/api/audio/{audio_filename}']. *)
Definition audio_url_of (audio_filename : string) : string :=
  ("/api/audio/" ++ audio_filename)%string.

(** The script with a concurrent writer: [env] is the effect of the other
    writers of the database between the SELECT and the UPDATE statement. *)
Definition recover_audio_with (env : db -> db) (section_id audio_filename : string)
  (now : Z) (d : db) : recover_report * db :=
  match recover_select section_id (story_audio d) with
  | None => (NoProcessingEntry, d)
  | Some voice_id =>
      let d' := env d in
      (Recovered voice_id,
       with_story_audio d'
         (recover_update (audio_url_of audio_filename) now section_id voice_id
            (story_audio d')))
  end.

(** The script run alone. *)
Definition recover_audio (section_id audio_filename : string) (now : Z) (d : db)
  : recover_report * db :=
  recover_audio_with (fun d => d) section_id audio_filename now d.

(** ** reset_stuck_audio.py (force-fail) *)

(** [SELECT sa.section_id FROM story_audio sa JOIN story_sections ss
    ON sa.section_id = ss.id WHERE ss.story_id = ? AND sa.status = 'PROCESSING']
    as a nested-loop join. *)
Definition reset_select (story_id : string) (d : db) : list string :=
  flat_map (fun sa =>
    flat_map (fun ss =>
      if String.eqb (ss_id ss) (sa_section_id sa)
         && String.eqb (ss_story_id ss) story_id
         && status_eqb (sa_status sa) PROCESSING
      then [sa_section_id sa] else [])
      (story_sections d))
    (story_audio d).

Definition reset_error_message : string :=
  "Processing timed out (reset by admin)".

(** The row rewrite of [UPDATE story_audio SET status = 'ERROR',
    error = 'Processing timed out (reset by admin)', updated_at = ?]. *)
Definition reset_row (now : Z) (r : story_audio_row) : story_audio_row :=
  {| sa_section_id := sa_section_id r;
     sa_voice_id := sa_voice_id r;
     sa_status := ERROR;
     sa_audio_url := sa_audio_url r;
     sa_error := Some reset_error_message;
     sa_created_at := sa_created_at r;
     sa_updated_at := now;
     sa_completed_at := sa_completed_at r |}.

(** The whole statement, [... WHERE section_id = ?]. *)
Definition reset_update (now : Z) (section_id : string)
  (rows : list story_audio_row) : list story_audio_row :=
  map (fun r => if String.eqb (sa_section_id r) section_id
                then reset_row now r else r) rows.

(** [for row in rows: ... cursor.execute(update_query,
    (int(time.time() * 1000), section_id))]: the [k]-th iteration reads
    the clock value [clock k]. *)
Fixpoint reset_loop (clock : nat -> Z) (k : nat) (sections : list string)
  (rows : list story_audio_row) : list story_audio_row :=
  match sections with
  | [] => rows
  | s :: tl => reset_loop clock (S k) tl (reset_update (clock k) s rows)
  end.

Inductive reset_report :=
| NoStuckEntries                  (* "No stuck entries found." *)
| ResetEntries (n : nat).         (* "Found n stuck entries. Updating to ERROR..." *)

Definition reset_stuck_audio_with (env : db -> db) (story_id : string)
  (clock : nat -> Z) (d : db) : reset_report * db :=
  match reset_select story_id d with
  | [] => (NoStuckEntries, d)
  | sections =>
      let d' := env d in
      (ResetEntries (length sections),
       with_story_audio d' (reset_loop clock 0 sections (story_audio d')))
  end.

Definition reset_stuck_audio (story_id : string) (clock : nat -> Z) (d : db)
  : reset_report * db :=
  reset_stuck_audio_with (fun d => d) story_id clock d.

(** ** Query scripts *)

(** check_story_audio.py: [SELECT sa.section_id, sa.voice_id, sa.status,
    sa.audio_url, sa.created_at, sa.updated_at FROM story_audio sa JOIN
    story_sections ss ON sa.section_id = ss.id WHERE ss.story_id = ?]
    (no ORDER BY). *)
Definition check_story_audio (story_id : string) (d : db)
  : list (string * string * status * option string * Z * Z) :=
  flat_map (fun sa =>
    flat_map (fun ss =>
      if String.eqb (ss_id ss) (sa_section_id sa)
         && String.eqb (ss_story_id ss) story_id
      then [(sa_section_id sa, sa_voice_id sa, sa_status sa, sa_audio_url sa,
             sa_created_at sa, sa_updated_at sa)]
      else [])
      (story_sections d))
    (story_audio d).

(** [ORDER BY <key> ASC], as a stable insertion sort on [key]. *)
Fixpoint insert_by (key : story_narration_row -> Z) (r : story_narration_row)
  (l : list story_narration_row) : list story_narration_row :=
  match l with
  | [] => [r]
  | x :: tl => if key r <=? key x then r :: x :: tl
               else x :: insert_by key r tl
  end.

Fixpoint sort_by (key : story_narration_row -> Z) (l : list story_narration_row)
  : list story_narration_row :=
  match l with
  | [] => []
  | x :: tl => insert_by key x (sort_by key tl)
  end.

(** The outcome of a query script: [QueryError] is the [except Exception]
    branch that prints ["Error:"] (SQLite raises "no such column" for a
    column the table lacks), [QueryRows] the fetched rows. *)
Inductive query_result (A : Type) :=
| QueryError
| QueryRows (rows : list A).
Arguments QueryError {A}.
Arguments QueryRows {A}.

(** Every column of [needed] is among the table's columns [cols]. *)
Definition columns_present (needed cols : list string) : bool :=
  forallb (fun c => existsb (String.eqb c) cols) needed.

(** The [story_narrations] columns named by check_story_narrations.py. *)
Definition narrations_v1_columns : list string :=
  ["id"; "section_index"; "status"; "audio_url"; "error"; "created_at";
   "updated_at"; "story_id"]%string.

(** The [story_narrations] columns named by check_story_narrations_v2.py. *)
Definition narrations_v2_columns : list string :=
  ["id"; "chunk_index"; "status"; "audio_url"; "created_at"; "updated_at";
   "story_id"]%string.

Definition narration_v1_entry (n : story_narration_row)
  : string * Z * status * option string * option string * Z * Z :=
  (sn_id n, sn_section_index n, sn_status n, sn_audio_url n,
   sn_error n, sn_created_at n, sn_updated_at n).

Definition narration_v2_entry (n : story_narration_row)
  : string * Z * status * option string * Z * Z :=
  (sn_id n, sn_chunk_index n, sn_status n, sn_audio_url n,
   sn_created_at n, sn_updated_at n).

(** check_story_narrations.py: [SELECT id, section_index, status, audio_url,
    error, created_at, updated_at FROM story_narrations WHERE story_id = ?
    ORDER BY section_index ASC]; [narration_columns] are the table's
    columns. *)
Definition check_story_narrations (narration_columns : list string)
  (story_id : string) (d : db) : query_result (string * Z * status * option string
                                                * option string * Z * Z) :=
  if columns_present narrations_v1_columns narration_columns then
    QueryRows (map narration_v1_entry
      (sort_by sn_section_index
         (filter (fun n => String.eqb (sn_story_id n) story_id) (story_narrations d))))
  else QueryError.

(** check_story_narrations_v2.py: [SELECT id, chunk_index, status, audio_url,
    created_at, updated_at FROM story_narrations WHERE story_id = ?
    ORDER BY chunk_index ASC]. *)
Definition check_story_narrations_v2 (narration_columns : list string)
  (story_id : string) (d : db) : query_result (string * Z * status * option string
                                                * Z * Z) :=
  if columns_present narrations_v2_columns narration_columns then
    QueryRows (map narration_v2_entry
      (sort_by sn_chunk_index
         (filter (fun n => String.eqb (sn_story_id n) story_id) (story_narrations d))))
  else QueryError.

(** ** Job creation *)

Module JobStore.

(** Modelled from the spec: job creation ([create(key, voice_id)] of the Job
    Store, section 4.1) is done by the web application, whose code is not in
    this repository's Python sources.  The spec: [create] fails with
    [DuplicateActiveJob] if a non-terminal ([PENDING] or [PROCESSING]) job
    already exists for the key; otherwise it starts a new independent record
    in [PENDING]; terminal jobs are kept as history. *)
Inductive create_error := DuplicateActiveJob.

Definition non_terminal (s : status) : bool :=
  match s with PENDING | PROCESSING => true | COMPLETE | ERROR => false end.

Definition active_for (k : string * string) (r : story_audio_row) : bool :=
  key_eqb (sa_key r) k && non_terminal (sa_status r).

Definition new_job (target_id voice_id : string) (now : Z) : story_audio_row :=
  {| sa_section_id := target_id;
     sa_voice_id := voice_id;
     sa_status := PENDING;
     sa_audio_url := None;
     sa_error := None;
     sa_created_at := now;
     sa_updated_at := now;
     sa_completed_at := None |}.

Definition create (target_id voice_id : string) (now : Z)
  (rows : list story_audio_row) : create_error + list story_audio_row :=
  if existsb (active_for (target_id, voice_id)) rows
  then inl DuplicateActiveJob
  else inr (rows ++ [new_job target_id voice_id now]).

(** At most one non-terminal job per [(target_id, voice_id)]. *)
Definition one_active_per_key (rows : list story_audio_row) : Prop :=
  forall k, (length (filter (active_for k) rows) <= 1)%nat.

End JobStore.

(** ** Sample data *)

Definition mk_row (section_id voice_id : string) (st : status)
  (audio_url error : option string) (created updated : Z)
  (completed : option Z) : story_audio_row :=
  {| sa_section_id := section_id; sa_voice_id := voice_id; sa_status := st;
     sa_audio_url := audio_url; sa_error := error; sa_created_at := created;
     sa_updated_at := updated; sa_completed_at := completed |}.

Definition mk_section (id story_id : string) (index : Z) : story_section_row :=
  {| ss_id := id; ss_story_id := story_id; ss_section_index := index |}.

(** Story [story-1] with sections [sec-1], [sec-2], [sec-3]. *)
Definition sample_sections : list story_section_row :=
  [mk_section "sec-1" "story-1" 0; mk_section "sec-2" "story-1" 1;
   mk_section "sec-3" "story-1" 2].

Definition sample_db (rows : list story_audio_row) : db :=
  {| story_audio := rows; story_sections := sample_sections;
     story_narrations := [] |}.

(** ** General facts about the scripts *)

Lemma key_eqb_eq k1 k2 : key_eqb k1 k2 = true <-> k1 = k2.
Proof.
  destruct k1 as [a b], k2 as [c d]; unfold key_eqb; simpl.
  rewrite andb_true_iff, !String.eqb_eq; split.
  - intros [-> ->]; reflexivity.
  - intros H; inversion H; auto.
Qed.

Lemma recover_select_some section_id rows v :
  recover_select section_id rows = Some v ->
  exists j, find (processing_in_section section_id) rows = Some j
            /\ In j rows /\ sa_section_id j = section_id
            /\ sa_status j = PROCESSING /\ sa_voice_id j = v.
Proof.
  unfold recover_select.
  destruct (find _ rows) as [j|] eqn:E; intros H; [|discriminate].
  inversion H; subst. exists j; split; [reflexivity|].
  apply find_some in E as [Hin Hj]; unfold processing_in_section in Hj.
  apply andb_true_iff in Hj as [Hs Hp].
  apply String.eqb_eq in Hs; apply status_eqb_eq in Hp; auto.
Qed.

Lemma recover_select_none section_id rows :
  recover_select section_id rows = None ->
  forall r, In r rows -> sa_section_id r = section_id -> sa_status r <> PROCESSING.
Proof.
  unfold recover_select.
  destruct (find _ rows) as [j|] eqn:E; intros H; [discriminate|].
  intros r Hin Hs Hp.
  pose proof (find_none _ _ E r Hin) as Hr; unfold processing_in_section in Hr.
  rewrite Hs, String.eqb_refl, Hp in Hr; discriminate.
Qed.

Lemma recover_update_nth url now section_id voice_id rows i r :
  nth_error rows i = Some r ->
  nth_error (recover_update url now section_id voice_id rows) i =
  Some (if key_eqb (sa_key r) (section_id, voice_id)
        then recover_row url now r else r).
Proof. intros H; unfold recover_update; rewrite nth_error_map, H; reflexivity. Qed.

Lemma nth_error_recover_update_inv url now section_id voice_id rows i r' :
  nth_error (recover_update url now section_id voice_id rows) i = Some r' ->
  exists r, nth_error rows i = Some r /\
    r' = if key_eqb (sa_key r) (section_id, voice_id)
         then recover_row url now r else r.
Proof.
  unfold recover_update; rewrite nth_error_map.
  destruct (nth_error rows i) as [r|]; simpl; intros H; [|discriminate].
  inversion H; eauto.
Qed.

(** The rows touched by the loop of reset_stuck_audio.py, one row at a time. *)
Fixpoint reset_loop_row (clock : nat -> Z) (k : nat) (sections : list string)
  (r : story_audio_row) : story_audio_row :=
  match sections with
  | [] => r
  | s :: tl => reset_loop_row clock (S k) tl
                 (if String.eqb (sa_section_id r) s then reset_row (clock k) r else r)
  end.

Lemma reset_loop_map clock k sections rows :
  reset_loop clock k sections rows = map (reset_loop_row clock k sections) rows.
Proof.
  revert k rows; induction sections as [|s tl IH]; intros k rows; simpl.
  - symmetry; apply map_id.
  - rewrite IH; unfold reset_update; rewrite map_map; reflexivity.
Qed.

Lemma reset_loop_row_fields clock k sections r :
  sa_section_id (reset_loop_row clock k sections r) = sa_section_id r /\
  sa_voice_id (reset_loop_row clock k sections r) = sa_voice_id r /\
  sa_audio_url (reset_loop_row clock k sections r) = sa_audio_url r /\
  sa_completed_at (reset_loop_row clock k sections r) = sa_completed_at r.
Proof.
  revert k r; induction sections as [|s tl IH]; intros k r; simpl; [auto|].
  destruct (IH (S k) (if String.eqb (sa_section_id r) s then reset_row (clock k) r else r))
    as (H1 & H2 & H3 & H4).
  rewrite H1, H2, H3, H4.
  destruct (String.eqb (sa_section_id r) s); simpl; auto.
Qed.

Lemma reset_loop_row_in clock k sections r :
  In (sa_section_id r) sections ->
  sa_status (reset_loop_row clock k sections r) = ERROR.
Proof.
  revert k r; induction sections as [|s tl IH]; intros k r Hin; simpl; [contradiction|].
  destruct (String.eqb (sa_section_id r) s) eqn:E.
  - (* once in ERROR, later iterations keep the status ERROR *)
    clear IH Hin. remember (reset_row (clock k) r) as r0.
    assert (Hr0 : sa_status r0 = ERROR) by (subst; reflexivity).
    clear Heqr0. revert k r0 Hr0; induction tl as [|s' tl' IH']; intros k r0 Hr0; simpl; auto.
    apply IH'. destruct (String.eqb (sa_section_id r0) s'); auto.
  - destruct Hin as [Hs|Hin]; [subst; rewrite String.eqb_refl in E; discriminate|].
    apply IH; auto.
Qed.

Lemma reset_loop_row_notin clock k sections r :
  ~ In (sa_section_id r) sections -> reset_loop_row clock k sections r = r.
Proof.
  revert k; induction sections as [|s tl IH]; intros k Hn; simpl; [reflexivity|].
  destruct (String.eqb (sa_section_id r) s) eqn:E.
  - apply String.eqb_eq in E; exfalso; apply Hn; left; auto.
  - apply IH; intros H; apply Hn; right; auto.
Qed.

Lemma reset_select_In story_id d x :
  In x (reset_select story_id d) <->
  exists sa ss, In sa (story_audio d) /\ In ss (story_sections d) /\
    ss_id ss = sa_section_id sa /\ ss_story_id ss = story_id /\
    sa_status sa = PROCESSING /\ x = sa_section_id sa.
Proof.
  unfold reset_select; rewrite in_flat_map; split.
  - intros (sa & Hsa & Hx); rewrite in_flat_map in Hx.
    destruct Hx as (ss & Hss & Hx).
    destruct (String.eqb (ss_id ss) (sa_section_id sa)) eqn:E1,
             (String.eqb (ss_story_id ss) story_id) eqn:E2,
             (status_eqb (sa_status sa) PROCESSING) eqn:E3;
      simpl in Hx; try contradiction.
    destruct Hx as [Hx|[]].
    apply String.eqb_eq in E1, E2; apply status_eqb_eq in E3.
    exists sa, ss; repeat split; auto.
  - intros (sa & ss & Hsa & Hss & E1 & E2 & E3 & Hx).
    exists sa; split; auto. rewrite in_flat_map; exists ss; split; auto.
    rewrite E1, E2, E3, !String.eqb_refl; simpl; auto.
Qed.

Lemma recover_select_exists section_id rows j :
  In j rows -> sa_section_id j = section_id -> sa_status j = PROCESSING ->
  exists v, recover_select section_id rows = Some v.
Proof.
  intros Hin Hs Hp.
  destruct (recover_select section_id rows) as [v|] eqn:E; [eauto|].
  exfalso; exact (recover_select_none _ _ E j Hin Hs Hp).
Qed.

Lemma recover_audio_with_found env section_id filename now d voice_id :
  recover_select section_id (story_audio d) = Some voice_id ->
  recover_audio_with env section_id filename now d =
  (Recovered voice_id,
   with_story_audio (env d)
     (recover_update (audio_url_of filename) now section_id voice_id
        (story_audio (env d)))).
Proof. intros H; unfold recover_audio_with; rewrite H; reflexivity. Qed.

Lemma reset_stuck_audio_with_found env story_id clock d :
  reset_select story_id d <> [] ->
  reset_stuck_audio_with env story_id clock d =
  (ResetEntries (length (reset_select story_id d)),
   with_story_audio (env d)
     (map (reset_loop_row clock 0 (reset_select story_id d)) (story_audio (env d)))).
Proof.
  intros H; unfold reset_stuck_audio_with.
  destruct (reset_select story_id d) eqn:E; [congruence|].
  rewrite reset_loop_map; reflexivity.
Qed.

(** A worker that finishes job [(sec-1, v-1)] with its own artifact. *)
Definition worker_completes_sec1 (d : db) : db :=
  with_story_audio d
    (map (fun r => if key_eqb (sa_key r) ("sec-1", "v-1")%string
                   then mk_row (sa_section_id r) (sa_voice_id r) COMPLETE
                          (Some "/api/audio/worker.wav"%string) None
                          (sa_created_at r) 500 (Some 500)
                   else r) (story_audio d)).

Definition stuck_sec1 : story_audio_row :=
  mk_row "sec-1" "v-1" PROCESSING None None 0 1 None.

(** Section [sec-1] with two voices in [PROCESSING]. *)
Definition two_voices_db : db :=
  sample_db [mk_row "sec-1" "v-1" PROCESSING None None 0 1 None;
             mk_row "sec-1" "v-2" PROCESSING None None 0 2 None].

(** ** Claims *)

(** C1 (code bug).  recover_audio.py states its intent at line 10 ("update
    by section_id and status='PROCESSING' to be safe"), but both remedies are
    a read followed by separate writes: a SELECT of [PROCESSING] rows, then
    UPDATE statements whose WHERE clause does not test the status.  When the
    SELECT finds nothing, nothing is written and a no-op is reported.
    Otherwise every row the UPDATE's key matches at write time is overwritten
    whatever its status is then, so a row that left [PROCESSING] in between
    is still rewritten, and no [NoLongerProcessing] outcome exists. *)
Theorem C1_read_then_unguarded_write :
  (forall env section_id filename now d,
     recover_select section_id (story_audio d) = None ->
     recover_audio_with env section_id filename now d = (NoProcessingEntry, d)) /\
  (forall env section_id filename now d voice_id,
     recover_select section_id (story_audio d) = Some voice_id ->
     fst (recover_audio_with env section_id filename now d) = Recovered voice_id /\
     forall i r, nth_error (story_audio (env d)) i = Some r ->
       sa_key r = (section_id, voice_id) ->
       nth_error (story_audio (snd (recover_audio_with env section_id filename now d))) i
       = Some (recover_row (audio_url_of filename) now r)) /\
  (forall env story_id clock d,
     reset_select story_id d = [] ->
     reset_stuck_audio_with env story_id clock d = (NoStuckEntries, d)) /\
  (forall env story_id clock d i r,
     nth_error (story_audio (env d)) i = Some r ->
     In (sa_section_id r) (reset_select story_id d) ->
     exists r', nth_error (story_audio (snd (reset_stuck_audio_with env story_id clock d))) i
                = Some r' /\ sa_status r' = ERROR /\
                sa_error r' = Some reset_error_message).
Proof.
  split; [|split; [|split]].
  - intros env section_id filename now d H; unfold recover_audio_with; rewrite H; reflexivity.
  - intros env section_id filename now d voice_id H.
    rewrite (recover_audio_with_found env section_id filename now d voice_id H); simpl.
    split; [reflexivity|].
    intros i r Hi Hk. rewrite (recover_update_nth _ _ _ _ _ _ _ Hi).
    replace (key_eqb (sa_key r) (section_id, voice_id)) with true
      by (symmetry; apply key_eqb_eq; exact Hk).
    reflexivity.
  - intros env story_id clock d H; unfold reset_stuck_audio_with; rewrite H; reflexivity.
  - intros env story_id clock d i r Hi Hin.
    assert (Hne : reset_select story_id d <> []) by (intros E; rewrite E in Hin; contradiction).
    rewrite (reset_stuck_audio_with_found env story_id clock d Hne); simpl.
    rewrite nth_error_map, Hi; simpl.
    eexists; split; [reflexivity|].
    split; [apply reset_loop_row_in; exact Hin|].
    (* the error field after the last matching iteration *)
    generalize 0%nat; revert r Hin Hi; generalize (reset_select story_id d) as secs.
    induction secs as [|s tl IH]; intros r Hin Hi k; [contradiction|]; simpl.
    destruct (String.eqb (sa_section_id r) s) eqn:E.
    + clear IH Hin. remember (reset_row (clock k) r) as r0.
      assert (H0 : sa_error r0 = Some reset_error_message) by (subst; reflexivity).
      clear Heqr0 Hi. revert k r0 H0; induction tl as [|s' tl' IH']; intros k r0 H0;
        simpl; auto.
      apply IH'. destruct (String.eqb (sa_section_id r0) s'); auto.
    + destruct Hin as [Hs|Hin]; [subst; rewrite String.eqb_refl in E; discriminate|].
      eapply IH; eauto.
Qed.

(** C1 failing input: force-complete reads job [(sec-1, v-1)] while it is
    [PROCESSING]; a worker then completes it with its own artifact; the
    UPDATE still overwrites the now [COMPLETE] row (URL and timestamps) and
    the script reports that it recovered the job, not [NoLongerProcessing]. *)
Lemma C1_counterexample :
  let d := sample_db [stuck_sec1] in
  let res := recover_audio_with worker_completes_sec1 "sec-1" "x.wav" 900 d in
  map sa_status (story_audio (worker_completes_sec1 d)) = [COMPLETE] /\
  fst res = Recovered "v-1" /\
  story_audio (snd res) <> story_audio (worker_completes_sec1 d).
Proof.
  simpl; split; [reflexivity|split; [reflexivity|]].
  vm_compute; intros H; inversion H.
Qed.

(** C2 (code bug).  The spec's scenario: job [(sec-1, v-1)] created at 0,
    [PROCESSING] since 1, force-failed at 301.  reset_stuck_audio.py sets
    [status = ERROR], the fixed message and [updated_at = 301], but never
    writes [completed_at], which stays [None]. *)
Theorem C2_force_fail_scenario :
  story_audio (snd (reset_stuck_audio "story-1" (fun _ => 301)
                      (sample_db [stuck_sec1])))
  = [mk_row "sec-1" "v-1" ERROR None (Some reset_error_message) 0 301 None].
Proof. reflexivity. Qed.

(** C3 (corrected).  Force-complete is addressed by section, not by job:
    when section [section_id] has a [PROCESSING] job [j], it reports the voice
    [v] of the first [PROCESSING] row of the section in storage order, and a
    [PROCESSING] row of the section gets [status = COMPLETE], the artifact URL,
    [completed_at = now] (and [updated_at = now]) exactly when its voice is
    [v]; a [PROCESSING] row of the section with another voice is left
    unchanged, still [PROCESSING]. *)
Theorem C3_force_complete_sets_fields section_id filename now d j :
  In j (story_audio d) -> sa_section_id j = section_id ->
  sa_status j = PROCESSING ->
  exists v,
    fst (recover_audio section_id filename now d) = Recovered v /\
    (exists j0, find (processing_in_section section_id) (story_audio d) = Some j0 /\
                sa_voice_id j0 = v) /\
    forall i r, nth_error (story_audio d) i = Some r ->
      sa_section_id r = section_id -> sa_status r = PROCESSING ->
      exists r', nth_error (story_audio (snd (recover_audio section_id filename now d))) i
                 = Some r' /\
        (sa_voice_id r = v ->
         sa_status r' = COMPLETE /\ sa_audio_url r' = Some (audio_url_of filename) /\
         sa_completed_at r' = Some now /\ sa_updated_at r' = now) /\
        (sa_voice_id r <> v -> r' = r).
Proof.
  intros Hin Hs Hp.
  destruct (recover_select_exists _ _ _ Hin Hs Hp) as [v Hv].
  destruct (recover_select_some _ _ _ Hv) as (j0 & Hf & _ & _ & _ & Hv0).
  exists v. unfold recover_audio; rewrite (recover_audio_with_found _ _ _ _ _ _ Hv).
  cbn [fst snd story_audio with_story_audio].
  split; [reflexivity|split; [exists j0; split; [exact Hf|exact Hv0]|]].
  intros i r Hi Hrs _. rewrite (recover_update_nth _ _ _ _ _ _ _ Hi).
  eexists; split; [reflexivity|split; intros Hrv].
  - replace (key_eqb (sa_key r) (section_id, v)) with true.
    + cbn; auto.
    + symmetry; apply key_eqb_eq; unfold sa_key; rewrite Hrs, Hrv; reflexivity.
  - destruct (key_eqb (sa_key r) (section_id, v)) eqn:K; [|reflexivity].
    apply key_eqb_eq in K; unfold sa_key in K; injection K as _ K; contradiction.
Qed.

(** C3 counterexample: section [sec-1] has two [PROCESSING] jobs, for
    voices [v-1] and [v-2]; force-complete of the section completes the job
    of [v-1] and leaves the job of [v-2] in [PROCESSING], without its
    artifact URL or [completed_at]. *)
Lemma C3_counterexample :
  In (mk_row "sec-1" "v-2" PROCESSING None None 0 2 None) (story_audio two_voices_db) /\
  map sa_status (story_audio (snd (recover_audio "sec-1" "x.wav" 900 two_voices_db)))
  = [COMPLETE; PROCESSING] /\
  nth_error (story_audio (snd (recover_audio "sec-1" "x.wav" 900 two_voices_db))) 1
  = Some (mk_row "sec-1" "v-2" PROCESSING None None 0 2 None).
Proof. vm_compute; auto. Qed.

Lemma C3_witness :
  exists v, fst (recover_audio "sec-1" "x.wav" 900 two_voices_db) = Recovered v /\
            v = "v-1"%string.
Proof.
  destruct (C3_force_complete_sets_fields "sec-1" "x.wav" 900 two_voices_db
              (mk_row "sec-1" "v-2" PROCESSING None None 0 2 None))
    as (v & Hr & (j0 & Hf & Hv0) & _).
  - simpl; auto.
  - reflexivity.
  - reflexivity.
  - exists v; split; [exact Hr|].
    vm_compute in Hf; injection Hf as <-; rewrite <- Hv0; reflexivity.
Defined.

(** C4 (corrected).  The stuck-entry query of reset_stuck_audio.py has no
    timeout: it returns the section id of every [PROCESSING] row of
    [story_audio] whose section belongs to the story, whatever its
    [updated_at], and it is a read (a function of the store). *)
Theorem C4_stuck_query_has_no_timeout story_id d x :
  In x (reset_select story_id d) <->
  exists sa ss, In sa (story_audio d) /\ In ss (story_sections d) /\
    ss_id ss = sa_section_id sa /\ ss_story_id ss = story_id /\
    sa_status sa = PROCESSING /\ x = sa_section_id sa.
Proof. apply reset_select_In. Qed.

(** C4 counterexample: with now = 1000 and timeout = 300, a [PROCESSING] job
    updated at 701 = now - timeout + 1 is returned by the query. *)
Lemma C4_counterexample :
  let r := mk_row "sec-1" "v-1" PROCESSING None None 0 701 None in
  In "sec-1"%string (reset_select "story-1" (sample_db [r])) /\
  ~ (1000 - sa_updated_at r > 300).
Proof. split; [vm_compute; left; reflexivity | simpl; lia]. Qed.

Lemma recover_audio_rows section_id filename now d i r r' :
  nth_error (story_audio d) i = Some r ->
  nth_error (story_audio (snd (recover_audio section_id filename now d))) i = Some r' ->
  r' = r \/ r' = recover_row (audio_url_of filename) now r.
Proof.
  intros Hi Hi'. unfold recover_audio, recover_audio_with in Hi'.
  destruct (recover_select section_id (story_audio d)) as [v|]; simpl in Hi'.
  - rewrite (recover_update_nth _ _ _ _ _ _ _ Hi) in Hi'. inversion Hi'.
    destruct (key_eqb (sa_key r) (section_id, v)); auto.
  - rewrite Hi in Hi'; inversion Hi'; auto.
Qed.

Lemma reset_stuck_audio_rows story_id clock d i r r' :
  nth_error (story_audio d) i = Some r ->
  nth_error (story_audio (snd (reset_stuck_audio story_id clock d))) i = Some r' ->
  r' = r \/ (r' = reset_loop_row clock 0 (reset_select story_id d) r /\
             In (sa_section_id r) (reset_select story_id d)).
Proof.
  intros Hi Hi'.
  destruct (reset_select story_id d) as [|s tl] eqn:E.
  - unfold reset_stuck_audio, reset_stuck_audio_with in Hi'; rewrite E in Hi'.
    simpl in Hi'; rewrite Hi in Hi'; inversion Hi'; auto.
  - unfold reset_stuck_audio in Hi'.
    rewrite reset_stuck_audio_with_found in Hi' by (rewrite E; discriminate).
    rewrite E in Hi'; cbn [snd story_audio with_story_audio] in Hi'.
    rewrite nth_error_map, Hi in Hi'; cbn [option_map] in Hi'.
    injection Hi' as <-.
    destruct (in_dec string_dec (sa_section_id r) (s :: tl)) as [Hin|Hn].
    + right; split; [reflexivity|exact Hin].
    + left; exact (reset_loop_row_notin clock 0 (s :: tl) r Hn).
Qed.

(** C5 (corrected).  No status update of the code checks the pair (current
    status, requested status) and no [IllegalTransition] outcome exists (the
    reports are [NoProcessingEntry]/[Recovered] and
    [NoStuckEntries]/[ResetEntries]): each UPDATE replaces the status of the
    rows it matches whatever that status was.  The recovery scripts only
    write terminal statuses: every row either stays as it was or is
    [COMPLETE] after force-complete, resp. [ERROR] after force-fail. *)
Theorem C5_no_transition_check :
  (forall url now r, sa_status (recover_row url now r) = COMPLETE) /\
  (forall now r, sa_status (reset_row now r) = ERROR) /\
  (forall section_id filename now d i r r',
     nth_error (story_audio d) i = Some r ->
     nth_error (story_audio (snd (recover_audio section_id filename now d))) i = Some r' ->
     r' = r \/ sa_status r' = COMPLETE) /\
  (forall story_id clock d i r r',
     nth_error (story_audio d) i = Some r ->
     nth_error (story_audio (snd (reset_stuck_audio story_id clock d))) i = Some r' ->
     r' = r \/ sa_status r' = ERROR).
Proof.
  split; [reflexivity|split; [reflexivity|split]].
  - intros section_id filename now d i r r' Hi Hi'.
    destruct (recover_audio_rows _ _ _ _ _ _ _ Hi Hi') as [->| ->]; auto.
  - intros story_id clock d i r r' Hi Hi'.
    destruct (reset_stuck_audio_rows _ _ _ _ _ _ Hi Hi') as [->|[-> Hin]]; auto.
    right; apply reset_loop_row_in; exact Hin.
Qed.

(** C5 counterexample: force-fail on story [story-1] where section [sec-1]
    has a stuck job for [v-1] and a [PENDING] job for [v-2]: the pending job
    is moved to [ERROR] (not an edge of the state machine) and nothing fails. *)
Lemma C5_counterexample :
  let d := sample_db [stuck_sec1; mk_row "sec-1" "v-2" PENDING None None 0 1 None] in
  map sa_status (story_audio d) = [PROCESSING; PENDING] /\
  fst (reset_stuck_audio "story-1" (fun _ => 301) d) = ResetEntries 1 /\
  map sa_status (story_audio (snd (reset_stuck_audio "story-1" (fun _ => 301) d)))
  = [ERROR; ERROR].
Proof. vm_compute; auto. Qed.

(** C6 (corrected).  The remedies never clear a field: force-fail writes
    [error] but keeps the stored [audio_url] (and [completed_at]);
    force-complete writes [audio_url] but keeps the stored [error].  So a
    rewritten row satisfies "audio_url only when COMPLETE, error only when
    ERROR" exactly when it had no [audio_url] (force-fail), resp. no [error]
    (force-complete), before. *)
Theorem C6_remedies_keep_other_fields :
  (forall now r, sa_audio_url (reset_row now r) = sa_audio_url r /\
                 sa_completed_at (reset_row now r) = sa_completed_at r) /\
  (forall url now r, sa_error (recover_row url now r) = sa_error r) /\
  (forall story_id clock d i r r',
     nth_error (story_audio d) i = Some r ->
     nth_error (story_audio (snd (reset_stuck_audio story_id clock d))) i = Some r' ->
     sa_audio_url r' = sa_audio_url r /\ sa_completed_at r' = sa_completed_at r) /\
  (forall section_id filename now d i r r',
     nth_error (story_audio d) i = Some r ->
     nth_error (story_audio (snd (recover_audio section_id filename now d))) i = Some r' ->
     sa_error r' = sa_error r).
Proof.
  split; [auto|split; [reflexivity|split]].
  - intros story_id clock d i r r' Hi Hi'.
    destruct (reset_stuck_audio_rows _ _ _ _ _ _ Hi Hi') as [->|[-> _]]; auto.
    destruct (reset_loop_row_fields clock 0 (reset_select story_id d) r)
      as (_ & _ & H3 & H4); auto.
  - intros section_id filename now d i r r' Hi Hi'.
    destruct (recover_audio_rows _ _ _ _ _ _ _ Hi Hi') as [->| ->]; reflexivity.
Qed.

(** C6 counterexample: force-fail reads job [(sec-1, v-1)] while it is
    [PROCESSING]; the worker then completes it with an artifact; the
    force-fail UPDATE leaves an [ERROR] row that still carries that
    [audio_url]. *)
Lemma C6_counterexample :
  let res := reset_stuck_audio_with worker_completes_sec1 "story-1" (fun _ => 600)
               (sample_db [stuck_sec1]) in
  map (fun r => (sa_status r, sa_audio_url r)) (story_audio (snd res))
  = [(ERROR, Some "/api/audio/worker.wav"%string)].
Proof. vm_compute; reflexivity. Qed.

Lemma recover_frame_key section_id voice_id filename now d i r :
  (forall r0, In r0 (story_audio d) -> sa_key r0 = (section_id, voice_id) ->
              sa_status r0 <> PROCESSING) ->
  nth_error (story_audio d) i = Some r -> sa_key r = (section_id, voice_id) ->
  nth_error (story_audio (snd (recover_audio section_id filename now d))) i = Some r.
Proof.
  intros H Hi Hk. unfold recover_audio, recover_audio_with.
  destruct (recover_select section_id (story_audio d)) as [v|] eqn:E; simpl; [|exact Hi].
  destruct (recover_select_some _ _ _ E) as (j0 & _ & Hin0 & Hs0 & Hp0 & Hv0).
  rewrite (recover_update_nth _ _ _ _ _ _ _ Hi).
  destruct (key_eqb (sa_key r) (section_id, v)) eqn:K; [exfalso|reflexivity].
  apply key_eqb_eq in K; rewrite Hk in K; injection K as Hvv.
  apply (H j0 Hin0); [unfold sa_key; rewrite Hs0, Hv0, Hvv; reflexivity | exact Hp0].
Qed.

Lemma recover_leaves_key_complete section_id filename now d v :
  fst (recover_audio section_id filename now d) = Recovered v ->
  forall r, In r (story_audio (snd (recover_audio section_id filename now d))) ->
    sa_key r = (section_id, v) -> sa_status r = COMPLETE.
Proof.
  unfold recover_audio, recover_audio_with.
  destruct (recover_select section_id (story_audio d)) as [v'|] eqn:E; simpl;
    intros H; [injection H as <-|discriminate].
  intros r Hr Hk. unfold recover_update in Hr; apply in_map_iff in Hr as (r0 & <- & Hr0).
  destruct (key_eqb (sa_key r0) (section_id, v')) eqn:K; [reflexivity|].
  rewrite Hk in K; rewrite (proj2 (key_eqb_eq _ _) eq_refl) in K; discriminate.
Qed.

Lemma reset_result_rows story_id clock d :
  story_sections (snd (reset_stuck_audio story_id clock d)) = story_sections d /\
  forall sa, In sa (story_audio (snd (reset_stuck_audio story_id clock d))) ->
    exists r0, In r0 (story_audio d) /\
      sa = reset_loop_row clock 0 (reset_select story_id d) r0.
Proof.
  destruct (reset_select story_id d) as [|s tl] eqn:E.
  - unfold reset_stuck_audio, reset_stuck_audio_with; rewrite E; simpl.
    split; [reflexivity|]. intros sa Hsa; exists sa; auto.
  - unfold reset_stuck_audio.
    rewrite reset_stuck_audio_with_found by (rewrite E; discriminate).
    cbn [snd story_audio story_sections with_story_audio].
    split; [reflexivity|]. intros sa Hsa.
    apply in_map_iff in Hsa as (r0 & <- & Hr0). rewrite E. eauto.
Qed.

Lemma reset_clears_story story_id clock d :
  reset_select story_id (snd (reset_stuck_audio story_id clock d)) = [].
Proof.
  destruct (reset_select story_id (snd (reset_stuck_audio story_id clock d)))
    as [|x l] eqn:E; [reflexivity|exfalso].
  assert (Hx : In x (reset_select story_id (snd (reset_stuck_audio story_id clock d))))
    by (rewrite E; left; reflexivity).
  apply reset_select_In in Hx as (sa & ss & Hsa & Hss & E1 & E2 & E3 & _).
  destruct (reset_result_rows story_id clock d) as [Hsec Hrows].
  destruct (Hrows sa Hsa) as (r0 & Hr0 & ->).
  destruct (reset_loop_row_fields clock 0 (reset_select story_id d) r0) as (Hs & _).
  destruct (in_dec string_dec (sa_section_id r0) (reset_select story_id d)) as [Hin|Hn].
  - rewrite (reset_loop_row_in _ _ _ _ Hin) in E3; discriminate.
  - rewrite (reset_loop_row_notin _ _ _ _ Hn) in E1, E3.
    apply Hn, reset_select_In. rewrite Hsec in Hss. exists r0, ss; repeat split; auto.
Qed.

Lemma reset_stuck_audio_map story_id clock d :
  snd (reset_stuck_audio story_id clock d) =
  with_story_audio d (map (reset_loop_row clock 0 (reset_select story_id d)) (story_audio d)).
Proof.
  destruct (reset_select story_id d) as [|s tl] eqn:E.
  - unfold reset_stuck_audio, reset_stuck_audio_with; rewrite E; simpl.
    rewrite map_id; destruct d; reflexivity.
  - unfold reset_stuck_audio.
    rewrite reset_stuck_audio_with_found by (rewrite E; discriminate).
    rewrite E; reflexivity.
Qed.

Lemma reset_loop_row_error clock k sections r :
  In (sa_section_id r) sections ->
  sa_error (reset_loop_row clock k sections r) = Some reset_error_message /\
  exists k', sa_updated_at (reset_loop_row clock k sections r) = clock k'.
Proof.
  revert k r; induction sections as [|s tl IH]; intros k r Hin; simpl; [contradiction|].
  destruct (String.eqb (sa_section_id r) s) eqn:E.
  - (* the row matches: later matching iterations rewrite the same fields *)
    clear IH Hin. remember (reset_row (clock k) r) as r0.
    assert (H0 : sa_section_id r0 = sa_section_id r /\
                 sa_error r0 = Some reset_error_message /\
                 exists k', sa_updated_at r0 = clock k')
      by (subst; split; [reflexivity|split; [reflexivity|exists k; reflexivity]]).
    clear Heqr0 E. revert k r0 H0; induction tl as [|s' tl' IH']; intros k r0 H0;
      simpl; [tauto|].
    apply IH'. destruct (String.eqb (sa_section_id r0) s'); [|exact H0].
    split; [apply H0|split; [reflexivity|exists (S k); reflexivity]].
  - destruct Hin as [Hs|Hin]; [subst; rewrite String.eqb_refl in E; discriminate|].
    apply IH; exact Hin.
Qed.



(** Facts about the [ORDER BY] sort. *)
Definition key_le (key : story_narration_row -> Z) (a b : story_narration_row) : Prop :=
  key a <= key b.

Lemma insert_by_perm key x l : Permutation (insert_by key x l) (x :: l).
Proof.
  induction l as [|y tl IH]; simpl; [reflexivity|].
  destruct (key x <=? key y); [reflexivity|].
  rewrite IH; apply perm_swap.
Qed.

Lemma sort_by_perm key l : Permutation (sort_by key l) l.
Proof.
  induction l as [|x tl IH]; simpl; [reflexivity|].
  rewrite insert_by_perm; auto.
Qed.

Lemma insert_by_hd key y x l :
  HdRel (key_le key) y l -> key_le key y x -> HdRel (key_le key) y (insert_by key x l).
Proof.
  intros H Hyx; destruct l as [|z tl]; simpl.
  - constructor; exact Hyx.
  - destruct (key x <=? key z); constructor; auto.
    inversion H; auto.
Qed.

Lemma insert_by_sorted key x l :
  Sorted (key_le key) l -> Sorted (key_le key) (insert_by key x l).
Proof.
  induction l as [|y tl IH]; intros Hs; simpl.
  - repeat constructor.
  - destruct (key x <=? key y) eqn:E.
    + constructor; [exact Hs|constructor; apply Z.leb_le; exact E].
    + apply Sorted_inv in Hs as [Htl Hhd].
      constructor; [apply IH; exact Htl|].
      apply insert_by_hd; [exact Hhd|].
      unfold key_le; apply Z.leb_gt in E; lia.
Qed.

Lemma sort_by_sorted key l : Sorted (key_le key) (sort_by key l).
Proof.
  induction l as [|x tl IH]; simpl; [constructor|].
  apply insert_by_sorted; exact IH.
Qed.

Lemma columns_present_incl needed cols :
  columns_present needed cols = true <-> incl needed cols.
Proof.
  unfold columns_present, incl; rewrite forallb_forall; split.
  - intros H c Hc; specialize (H c Hc).
    apply existsb_exists in H as (c' & Hc' & E); apply String.eqb_eq in E; subst; exact Hc'.
  - intros H c Hc; apply existsb_exists; exists c; split; [apply H, Hc|apply String.eqb_refl].
Qed.

(** A [story_audio] row of the story: its section is a section of the story. *)
Definition in_story (story_id : string) (sections : list story_section_row)
  (sa : story_audio_row) : bool :=
  existsb (fun ss => String.eqb (ss_id ss) (sa_section_id sa)
                     && String.eqb (ss_story_id ss) story_id) sections.

Definition audio_entry (sa : story_audio_row)
  : string * string * status * option string * Z * Z :=
  (sa_section_id sa, sa_voice_id sa, sa_status sa, sa_audio_url sa,
   sa_created_at sa, sa_updated_at sa).

(** With unique section ids the JOIN gives a row at most one partner. *)
Lemma join_entry_unique story_id sa sections :
  NoDup (map ss_id sections) ->
  flat_map (fun ss =>
    if String.eqb (ss_id ss) (sa_section_id sa) && String.eqb (ss_story_id ss) story_id
    then [audio_entry sa] else []) sections
  = if in_story story_id sections sa then [audio_entry sa] else [].
Proof.
  unfold in_story.
  induction sections as [|ss tl IH]; intros Hnd; simpl; [reflexivity|].
  inversion Hnd as [|x l Hx Hnd']; subst.
  rewrite IH by exact Hnd'.
  destruct (String.eqb (ss_id ss) (sa_section_id sa)) eqn:E1,
           (String.eqb (ss_story_id ss) story_id) eqn:E2; simpl; try reflexivity.
  apply String.eqb_eq in E1.
  destruct (existsb _ tl) eqn:E4; [exfalso|reflexivity].
  apply existsb_exists in E4 as (ss' & Hin & Hm).
  apply andb_true_iff in Hm as [Hm _]; apply String.eqb_eq in Hm.
  apply Hx; rewrite E1, <- Hm; apply in_map; exact Hin.
Qed.

Lemma check_story_audio_rows story_id d :
  NoDup (map ss_id (story_sections d)) ->
  check_story_audio story_id d
  = map audio_entry (filter (in_story story_id (story_sections d)) (story_audio d)).
Proof.
  intros Hnd; unfold check_story_audio.
  induction (story_audio d) as [|sa tl IH]; simpl; [reflexivity|].
  pose proof (join_entry_unique story_id sa (story_sections d) Hnd) as J.
  unfold audio_entry in J |- *. rewrite J, IH.
  destruct (in_story story_id (story_sections d) sa); reflexivity.
Qed.

Definition mk_narration (id story_id : string) (index : Z) (st : status)
  : story_narration_row :=
  {| sn_id := id; sn_story_id := story_id; sn_chunk_index := index;
     sn_section_index := index; sn_status := st; sn_audio_url := None;
     sn_error := None; sn_created_at := 0; sn_updated_at := 0 |}.

(** A [story_narrations] table keyed by [chunk_index] (spec section 3, and
    the columns check_story_narrations_v2.py reads), here with an [error]
    column too. *)
Definition chunk_narration_columns : list string :=
  ["id"; "story_id"; "chunk_index"; "status"; "audio_url"; "error";
   "created_at"; "updated_at"]%string.



(** Facts about [JobStore.create] and the one-active-job-per-key rule. *)
Lemma active_for_iff k r :
  JobStore.active_for k r = true <->
  sa_key r = k /\ (sa_status r = PENDING \/ sa_status r = PROCESSING).
Proof.
  unfold JobStore.active_for; rewrite andb_true_iff, key_eqb_eq.
  destruct (sa_status r); simpl; intuition discriminate.
Qed.

Lemma active_count_map k f l :
  (forall r, JobStore.active_for k (f r) = true -> JobStore.active_for k r = true) ->
  (length (filter (JobStore.active_for k) (map f l))
   <= length (filter (JobStore.active_for k) l))%nat.
Proof.
  intros Hf; induction l as [|x tl IH]; simpl; [lia|].
  destruct (JobStore.active_for k (f x)) eqn:E.
  - rewrite (Hf x E); simpl; lia.
  - destruct (JobStore.active_for k x); simpl; lia.
Qed.

Lemma active_terminal k r :
  sa_status r = COMPLETE \/ sa_status r = ERROR -> JobStore.active_for k r = false.
Proof.
  intros H; unfold JobStore.active_for.
  destruct H as [H|H]; rewrite H; apply andb_false_r.
Qed.

Lemma one_active_mono f rows :
  (forall k r, JobStore.active_for k (f r) = true -> JobStore.active_for k r = true) ->
  JobStore.one_active_per_key rows -> JobStore.one_active_per_key (map f rows).
Proof.
  intros Hf H k. specialize (H k).
  pose proof (active_count_map k f rows (Hf k)); lia.
Qed.

(** C9 (modelled from the spec, see [JobStore.create]).  [create] fails with
    [DuplicateActiveJob] exactly when a [PENDING] or [PROCESSING] job exists
    for the key; otherwise it appends a new [PENDING] record and keeps the
    old ones.  At most one non-terminal job per [(target_id, voice_id)] is
    kept by [create] and by both recovery scripts. *)
Theorem C9_create_one_active_per_key :
  (forall target_id voice_id now rows,
     JobStore.create target_id voice_id now rows = inl JobStore.DuplicateActiveJob <->
     exists r, In r rows /\ sa_key r = (target_id, voice_id) /\
               (sa_status r = PENDING \/ sa_status r = PROCESSING)) /\
  (forall target_id voice_id now rows rows',
     JobStore.create target_id voice_id now rows = inr rows' ->
     rows' = rows ++ [JobStore.new_job target_id voice_id now]) /\
  (forall target_id voice_id now rows rows',
     JobStore.one_active_per_key rows ->
     JobStore.create target_id voice_id now rows = inr rows' ->
     JobStore.one_active_per_key rows') /\
  (forall section_id filename now d,
     JobStore.one_active_per_key (story_audio d) ->
     JobStore.one_active_per_key
       (story_audio (snd (recover_audio section_id filename now d)))) /\
  (forall story_id clock d,
     JobStore.one_active_per_key (story_audio d) ->
     JobStore.one_active_per_key
       (story_audio (snd (reset_stuck_audio story_id clock d)))).
Proof.
  split; [|split; [|split; [|split]]].
  - intros target_id voice_id now rows; unfold JobStore.create.
    destruct (existsb (JobStore.active_for (target_id, voice_id)) rows) eqn:E.
    + split; [intros _|reflexivity].
      apply existsb_exists in E as (r & Hr & Ha).
      apply active_for_iff in Ha; exists r; tauto.
    + split; [discriminate|]. intros (r & Hr & Hk & Hs); exfalso.
      assert (Ha : JobStore.active_for (target_id, voice_id) r = true)
        by (apply active_for_iff; auto).
      assert (existsb (JobStore.active_for (target_id, voice_id)) rows = true)
        by (apply existsb_exists; eauto).
      congruence.
  - intros target_id voice_id now rows rows'; unfold JobStore.create.
    destruct (existsb _ rows); [discriminate|]. intros H; injection H; auto.
  - intros target_id voice_id now rows rows' H; unfold JobStore.create.
    destruct (existsb (JobStore.active_for (target_id, voice_id)) rows) eqn:E;
      [discriminate|].
    intros Hc; injection Hc as <-. intros k.
    rewrite filter_app, length_app.
    destruct (key_eqb (target_id, voice_id) k) eqn:K.
    + apply key_eqb_eq in K; subst k.
      assert (H0 : filter (JobStore.active_for (target_id, voice_id)) rows = []).
      { destruct (filter (JobStore.active_for (target_id, voice_id)) rows) as [|x l] eqn:F;
          [reflexivity|exfalso].
        assert (Hx : In x (filter (JobStore.active_for (target_id, voice_id)) rows))
          by (rewrite F; left; reflexivity).
        apply filter_In in Hx as [Hx Ha].
        assert (existsb (JobStore.active_for (target_id, voice_id)) rows = true)
          by (apply existsb_exists; eauto).
        congruence. }
      rewrite H0; simpl; destruct (JobStore.active_for _ _); simpl; lia.
    + specialize (H k).
      assert (Hn : JobStore.active_for k (JobStore.new_job target_id voice_id now) = false).
      { apply Bool.not_true_iff_false; intros Ha.
        apply active_for_iff in Ha as [Hk _]; cbn in Hk; subst k.
        rewrite (proj2 (key_eqb_eq _ _) eq_refl) in K; discriminate. }
      simpl; rewrite Hn; simpl; lia.
  - intros section_id filename now d H. unfold recover_audio, recover_audio_with.
    destruct (recover_select section_id (story_audio d)) as [v|]; simpl; [|exact H].
    apply one_active_mono; [|exact H].
    intros k r Ha. destruct (key_eqb (sa_key r) (section_id, v)); [|exact Ha].
    rewrite active_terminal in Ha; [discriminate|left; reflexivity].
  - intros story_id clock d H k.
    destruct (reset_select story_id d) as [|s tl] eqn:E.
    + unfold reset_stuck_audio, reset_stuck_audio_with; rewrite E; apply H.
    + unfold reset_stuck_audio.
      rewrite reset_stuck_audio_with_found by (rewrite E; discriminate).
      cbn [snd story_audio with_story_audio].
      revert k; apply one_active_mono; [|exact H].
      intros k r Ha.
      destruct (in_dec string_dec (sa_section_id r) (reset_select story_id d)) as [Hin|Hn].
      * rewrite active_terminal in Ha; [discriminate|right].
        apply reset_loop_row_in; exact Hin.
      * rewrite (reset_loop_row_notin _ _ _ _ Hn) in Ha; exact Ha.
Qed.

(** C10.  When section [section_id] has a [PROCESSING] job, force-complete
    takes the voice from the first [PROCESSING] row of that section in the
    table (not from its caller) and rewrites exactly the rows whose key is
    [(section_id, that voice)]; every other row, in particular the other
    voices' [PROCESSING] rows of the same section, is left unchanged. *)
Theorem C10_force_complete_one_key section_id filename now d j :
  In j (story_audio d) -> sa_section_id j = section_id ->
  sa_status j = PROCESSING ->
  exists j0,
    find (processing_in_section section_id) (story_audio d) = Some j0 /\
    fst (recover_audio section_id filename now d) = Recovered (sa_voice_id j0) /\
    length (story_audio (snd (recover_audio section_id filename now d)))
    = length (story_audio d) /\
    forall i r, nth_error (story_audio d) i = Some r ->
      (sa_key r = (section_id, sa_voice_id j0) ->
       nth_error (story_audio (snd (recover_audio section_id filename now d))) i
       = Some (recover_row (audio_url_of filename) now r)) /\
      (sa_key r <> (section_id, sa_voice_id j0) ->
       nth_error (story_audio (snd (recover_audio section_id filename now d))) i
       = Some r).
Proof.
  intros Hin Hs Hp.
  destruct (recover_select_exists _ _ _ Hin Hs Hp) as [v Hv].
  destruct (recover_select_some _ _ _ Hv) as (j0 & Hf & _ & _ & _ & Hv0).
  exists j0; split; [exact Hf|].
  rewrite Hv0. unfold recover_audio; rewrite (recover_audio_with_found _ _ _ _ _ _ Hv).
  cbn [fst snd story_audio with_story_audio].
  split; [reflexivity|split; [unfold recover_update; apply length_map|]].
  intros i r Hi; rewrite (recover_update_nth _ _ _ _ _ _ _ Hi); split; intros Hk.
  - rewrite (proj2 (key_eqb_eq _ _) Hk); reflexivity.
  - destruct (key_eqb (sa_key r) (section_id, v)) eqn:K; [|reflexivity].
    apply key_eqb_eq in K; contradiction.
Qed.

Lemma C10_witness :
  exists j0,
    find (processing_in_section "sec-1") (story_audio two_voices_db) = Some j0 /\
    fst (recover_audio "sec-1" "x.wav" 900 two_voices_db) = Recovered (sa_voice_id j0).
Proof.
  destruct (C10_force_complete_one_key "sec-1" "x.wav" 900 two_voices_db
              (mk_row "sec-1" "v-2" PROCESSING None None 0 2 None))
    as (j0 & Hf & Hr & _).
  - simpl; auto.
  - reflexivity.
  - reflexivity.
  - exists j0; split; [exact Hf|exact Hr].
Defined.

(** ** Further properties of the recovery scripts *)

Lemma reset_loop_row_created clock k sections r :
  sa_created_at (reset_loop_row clock k sections r) = sa_created_at r.
Proof.
  revert k r; induction sections as [|s tl IH]; intros k r; simpl; [reflexivity|].
  rewrite IH; destruct (String.eqb (sa_section_id r) s); reflexivity.
Qed.

(** X1.  Neither recovery script inserts or deletes rows, reorders them, or
    changes a row's [section_id], [voice_id] or [created_at]; the tables
    [story_sections] and [story_narrations] are left as they are. *)
Theorem X1_scripts_keep_row_identity :
  (forall section_id filename now d,
     let d' := snd (recover_audio section_id filename now d) in
     map sa_key (story_audio d') = map sa_key (story_audio d) /\
     map sa_created_at (story_audio d') = map sa_created_at (story_audio d) /\
     story_sections d' = story_sections d /\
     story_narrations d' = story_narrations d) /\
  (forall story_id clock d,
     let d' := snd (reset_stuck_audio story_id clock d) in
     map sa_key (story_audio d') = map sa_key (story_audio d) /\
     map sa_created_at (story_audio d') = map sa_created_at (story_audio d) /\
     story_sections d' = story_sections d /\
     story_narrations d' = story_narrations d).
Proof.
  split.
  - intros section_id filename now d d'; subst d'.
    unfold recover_audio, recover_audio_with.
    destruct (recover_select section_id (story_audio d)) as [v|]; simpl; [|auto].
    unfold recover_update; rewrite !map_map.
    split; [|split; [|auto]]; apply map_ext; intros r;
      destruct (key_eqb (sa_key r) (section_id, v)); reflexivity.
  - intros story_id clock d d'; subst d'.
    rewrite reset_stuck_audio_map; simpl; rewrite !map_map.
    split; [|split; [|auto]]; apply map_ext; intros r.
    + destruct (reset_loop_row_fields clock 0 (reset_select story_id d) r)
        as (H1 & H2 & _); unfold sa_key; rewrite H1, H2; reflexivity.
    + apply reset_loop_row_created.
Qed.

(** X2.  Force-fail rewrites a row to [ERROR] with the admin message when
    its section has a [PROCESSING] job of the story, and leaves it unchanged
    otherwise; in particular rows whose section is not a section of the
    story are never touched.  Afterwards no row of the story's sections is
    [PROCESSING]. *)
Theorem X2_force_fail_exact_rows story_id clock d :
  let d' := snd (reset_stuck_audio story_id clock d) in
  (forall i r, nth_error (story_audio d) i = Some r ->
     (forall ss, In ss (story_sections d) -> ss_id ss = sa_section_id r ->
                 ss_story_id ss <> story_id) ->
     nth_error (story_audio d') i = Some r) /\
  (forall i r, nth_error (story_audio d) i = Some r ->
     ~ (exists sa ss, In sa (story_audio d) /\ In ss (story_sections d) /\
          ss_id ss = sa_section_id sa /\ ss_story_id ss = story_id /\
          sa_status sa = PROCESSING /\ sa_section_id sa = sa_section_id r) ->
     nth_error (story_audio d') i = Some r) /\
  (forall i r, nth_error (story_audio d) i = Some r ->
     (exists sa ss, In sa (story_audio d) /\ In ss (story_sections d) /\
          ss_id ss = sa_section_id sa /\ ss_story_id ss = story_id /\
          sa_status sa = PROCESSING /\ sa_section_id sa = sa_section_id r) ->
     exists r', nth_error (story_audio d') i = Some r' /\ sa_status r' = ERROR /\
                sa_key r' = sa_key r) /\
  (forall sa ss, In sa (story_audio d') -> In ss (story_sections d') ->
     ss_id ss = sa_section_id sa -> ss_story_id ss = story_id ->
     sa_status sa <> PROCESSING).
Proof.
  intros d'.
  assert (Hnot : forall i r, nth_error (story_audio d) i = Some r ->
            ~ In (sa_section_id r) (reset_select story_id d) ->
            nth_error (story_audio d') i = Some r).
  { intros i r Hi Hn; subst d'; rewrite reset_stuck_audio_map; simpl.
    rewrite nth_error_map, Hi; simpl; rewrite reset_loop_row_notin; auto. }
  split; [|split; [|split]].
  - intros i r Hi Hss; apply Hnot; auto.
    intros Hin; apply reset_select_In in Hin as (sa & ss & _ & Hss' & E1 & E2 & _ & Hx).
    apply (Hss ss Hss'); [congruence | exact E2].
  - intros i r Hi He; apply Hnot; auto.
    intros Hin; apply reset_select_In in Hin as (sa & ss & H1 & H2 & E1 & E2 & E3 & Hx).
    apply He; exists sa, ss; repeat split; auto.
  - intros i r Hi (sa & ss & H1 & H2 & E1 & E2 & E3 & Hx).
    assert (Hin : In (sa_section_id r) (reset_select story_id d))
      by (apply reset_select_In; exists sa, ss; repeat split; auto; congruence).
    subst d'; rewrite reset_stuck_audio_map; simpl; rewrite nth_error_map, Hi; simpl.
    eexists; split; [reflexivity|]; split; [apply reset_loop_row_in; exact Hin|].
    destruct (reset_loop_row_fields clock 0 (reset_select story_id d) r)
      as (Hs & Hv & _); unfold sa_key; rewrite Hs, Hv; reflexivity.
  - intros sa ss Hsa Hss E1 E2 E3.
    assert (Hx : In (sa_section_id sa) (reset_select story_id d')).
    { apply reset_select_In; exists sa, ss; repeat split; auto. }
    subst d'; rewrite reset_clears_story in Hx; contradiction.
Qed.

(** Whether a [story_audio] row is a stuck entry of the story: [PROCESSING]
    and its section is a section of the story. *)
Definition stuck_in_story (story_id : string) (sections : list story_section_row)
  (sa : story_audio_row) : bool :=
  status_eqb (sa_status sa) PROCESSING
  && existsb (fun ss => String.eqb (ss_id ss) (sa_section_id sa)
                        && String.eqb (ss_story_id ss) story_id) sections.

Lemma join_length_unique story_id sa sections :
  NoDup (map ss_id sections) ->
  length (flat_map (fun ss =>
            if String.eqb (ss_id ss) (sa_section_id sa)
               && String.eqb (ss_story_id ss) story_id
               && status_eqb (sa_status sa) PROCESSING
            then [sa_section_id sa] else []) sections)
  = if stuck_in_story story_id sections sa then 1%nat else 0%nat.
Proof.
  unfold stuck_in_story.
  induction sections as [|ss tl IH]; intros Hnd; simpl.
  - destruct (status_eqb _ _); reflexivity.
  - inversion Hnd as [|x l Hx Hnd']; subst.
    rewrite length_app, IH by exact Hnd'.
    destruct (String.eqb (ss_id ss) (sa_section_id sa)) eqn:E1,
             (String.eqb (ss_story_id ss) story_id) eqn:E2,
             (status_eqb (sa_status sa) PROCESSING) eqn:E3; simpl; try reflexivity.
    (* the head matches: no other section has the same id *)
    apply String.eqb_eq in E1.
    destruct (existsb _ tl) eqn:E4; [exfalso|reflexivity].
    apply existsb_exists in E4 as (ss' & Hin & Hm).
    apply andb_true_iff in Hm as [Hm _]; apply String.eqb_eq in Hm.
    apply Hx; rewrite E1, <- Hm; apply in_map; exact Hin.
Qed.

(** X3.  When section ids are unique in [story_sections] (it is the table's
    id), the number of stuck entries force-fail reports is the number of
    [PROCESSING] rows of [story_audio] whose section belongs to the story
    (one per job, so a section with two stuck voices counts twice); with none
    it reports that nothing was found. *)
Theorem X3_force_fail_report_count story_id clock d :
  NoDup (map ss_id (story_sections d)) ->
  fst (reset_stuck_audio story_id clock d) =
  match length (filter (stuck_in_story story_id (story_sections d)) (story_audio d)) with
  | O => NoStuckEntries
  | n => ResetEntries n
  end.
Proof.
  intros Hnd.
  assert (Hlen : length (reset_select story_id d) =
                 length (filter (stuck_in_story story_id (story_sections d)) (story_audio d))).
  { unfold reset_select. induction (story_audio d) as [|sa tl IH]; simpl; [reflexivity|].
    rewrite length_app, join_length_unique by exact Hnd.
    destruct (stuck_in_story story_id (story_sections d) sa); simpl; rewrite IH; reflexivity. }
  unfold reset_stuck_audio, reset_stuck_audio_with.
  destruct (reset_select story_id d) as [|s tl] eqn:E; simpl in Hlen; rewrite <- Hlen;
    reflexivity.
Qed.

Lemma X3_witness :
  NoDup (map ss_id (story_sections (sample_db [stuck_sec1]))) /\
  fst (reset_stuck_audio "story-1" (fun _ => 301) (sample_db [stuck_sec1]))
  = ResetEntries 1.
Proof.
  assert (H : NoDup (map ss_id (story_sections (sample_db [stuck_sec1])))).
  { simpl; repeat constructor; simpl; intros Hc; repeat destruct Hc as [Hc|Hc];
      discriminate || contradiction. }
  split; [exact H|].
  rewrite (X3_force_fail_report_count "story-1" (fun _ => 301) _ H); reflexivity.
Defined.

(** Number of [PROCESSING] rows of a section. *)
Definition count_processing (section_id : string) (rows : list story_audio_row) : nat :=
  length (filter (processing_in_section section_id) rows).

(** [n] runs of recover_audio.py on the same section, the [k]-th one at time
    [clock k]. *)
Fixpoint recover_n (section_id audio_filename : string) (clock : nat -> Z)
  (n : nat) (d : db) : db :=
  match n with
  | O => d
  | S m => recover_n section_id audio_filename clock m
             (snd (recover_audio section_id audio_filename (clock m) d))
  end.

Lemma filter_map_le {A} (p : A -> bool) (g : A -> A) l :
  (forall x, p (g x) = true -> p x = true) ->
  (length (filter p (map g l)) <= length (filter p l))%nat.
Proof.
  intros Hg; induction l as [|x tl IH]; simpl; [lia|].
  destruct (p (g x)) eqn:E.
  - rewrite (Hg x E); simpl; lia.
  - destruct (p x); simpl; lia.
Qed.

Lemma filter_map_lt {A} (p : A -> bool) (g : A -> A) l y :
  (forall x, p (g x) = true -> p x = true) ->
  In y l -> p y = true -> p (g y) = false ->
  (length (filter p (map g l)) < length (filter p l))%nat.
Proof.
  intros Hg; induction l as [|x tl IH]; intros Hin Hy Hgy; [contradiction|].
  destruct Hin as [<-|Hin]; simpl.
  - rewrite Hy, Hgy; simpl. pose proof (filter_map_le p g tl Hg); lia.
  - specialize (IH Hin Hy Hgy).
    destruct (p (g x)) eqn:E.
    + rewrite (Hg x E); simpl; lia.
    + destruct (p x); simpl; lia.
Qed.

Lemma recover_step_count section_id filename now d :
  (recover_select section_id (story_audio d) = None ->
   count_processing section_id (story_audio d) = 0%nat) /\
  (forall v, recover_select section_id (story_audio d) = Some v ->
   (count_processing section_id (story_audio (snd (recover_audio section_id filename now d)))
    < count_processing section_id (story_audio d))%nat).
Proof.
  split.
  - intros H; unfold count_processing.
    destruct (filter (processing_in_section section_id) (story_audio d)) as [|x l] eqn:F;
      [reflexivity|exfalso].
    assert (Hx : In x (filter (processing_in_section section_id) (story_audio d)))
      by (rewrite F; left; reflexivity).
    apply filter_In in Hx as [Hx Hp]; unfold processing_in_section in Hp.
    apply andb_true_iff in Hp as [Hs Hp]; apply String.eqb_eq in Hs;
      apply status_eqb_eq in Hp.
    exact (recover_select_none _ _ H x Hx Hs Hp).
  - intros v H. unfold recover_audio; rewrite (recover_audio_with_found _ _ _ _ _ _ H).
    destruct (recover_select_some _ _ _ H) as (j0 & _ & Hin0 & Hs0 & Hp0 & Hv0).
    unfold count_processing, recover_update; simpl.
    apply (filter_map_lt _ _ _ j0).
    + intros x. destruct (key_eqb (sa_key x) (section_id, v)); [|auto].
      unfold processing_in_section; simpl; rewrite andb_false_r; discriminate.
    + exact Hin0.
    + unfold processing_in_section; rewrite Hs0, Hp0, String.eqb_refl; reflexivity.
    + replace (key_eqb (sa_key j0) (section_id, v)) with true.
      * unfold processing_in_section; simpl; apply andb_false_r.
      * symmetry; apply key_eqb_eq; unfold sa_key; rewrite Hs0, Hv0; reflexivity.
Qed.

(** X4.  Force-complete drains a section one voice at a time: it reports
    "no processing entry" only when the section has no [PROCESSING] row, and
    each run that recovers a job strictly lowers the number of [PROCESSING]
    rows of the section; so [n] runs, [n] at least that number, leave none. *)
Theorem X4_force_complete_drains_section section_id filename clock d :
  (forall now, fst (recover_audio section_id filename now d) = NoProcessingEntry ->
     count_processing section_id (story_audio d) = 0%nat) /\
  (forall now v, fst (recover_audio section_id filename now d) = Recovered v ->
     (count_processing section_id (story_audio (snd (recover_audio section_id filename now d)))
      < count_processing section_id (story_audio d))%nat) /\
  (forall n, (count_processing section_id (story_audio d) <= n)%nat ->
     count_processing section_id (story_audio (recover_n section_id filename clock n d)) = 0%nat).
Proof.
  split; [|split].
  - intros now H. apply (proj1 (recover_step_count section_id filename now d)).
    unfold recover_audio, recover_audio_with in H.
    destruct (recover_select section_id (story_audio d)); [discriminate|reflexivity].
  - intros now v H. unfold recover_audio, recover_audio_with in H.
    destruct (recover_select section_id (story_audio d)) as [v'|] eqn:E; [|discriminate].
    exact (proj2 (recover_step_count section_id filename now d) v' E).
  - intros n; revert d; induction n as [|m IH]; intros d Hn; simpl.
    + lia.
    + apply IH.
      destruct (recover_select section_id (story_audio d)) as [v|] eqn:E.
      * pose proof (proj2 (recover_step_count section_id filename (clock m) d) v E); lia.
      * unfold recover_audio, recover_audio_with; rewrite E; simpl.
        rewrite (proj1 (recover_step_count section_id filename (clock m) d) E); lia.
Qed.

(** ** check_processing.py *)

Module CheckProcessing.
Local Open Scope string_scope.

(** SQLite's [LIKE] folds case for ASCII letters only. *)
Definition ascii_lower (a : Ascii.ascii) : Ascii.ascii :=
  let n := Ascii.nat_of_ascii a in
  if (65 <=? n)%nat && (n <=? 90)%nat then Ascii.ascii_of_nat (n + 32) else a.

Fixpoint lower (s : string) : string :=
  match s with
  | EmptyString => EmptyString
  | String a s' => String (ascii_lower a) (lower s')
  end.

Fixpoint contains (p s : string) : bool :=
  String.prefix p s ||
  match s with
  | EmptyString => false
  | String _ s' => contains p s'
  end.

(** [v LIKE '%lit%'] for a pattern without wildcards; NULL never matches
    (the comparison is NULL, and the WHERE clause drops the row). *)
Definition like_contains (lit : string) (v : option string) : bool :=
  match v with
  | None => false
  | Some s => contains (lower lit) (lower s)
  end.

(** [WHERE status LIKE '%process%' OR status LIKE '%pending%'
    OR status LIKE '%generating%']. *)
Definition processing_like (v : option string) : bool :=
  like_contains "process" v || like_contains "pending" v
  || like_contains "generating" v.

(** The status strings the scripts store. *)
Definition status_text (s : status) : string :=
  match s with
  | PENDING => "PENDING" | PROCESSING => "PROCESSING"
  | COMPLETE => "COMPLETE" | ERROR => "ERROR"
  end.

Inductive table_report (R : Type) :=
| NoStatusColumn (table : string)            (* "... does not have a status column." *)
| NoProcessingItems (table : string)         (* "No processing items found." *)
| ProcessingItems (table : string) (rows : list R).
Arguments NoStatusColumn {R}.
Arguments NoProcessingItems {R}.
Arguments ProcessingItems {R}.

Section Tables.
(** A table row and its [status] value; [schema t] is the table's columns
    and rows, [None] when the table does not exist (then
    [PRAGMA table_info] returns no row).  Database errors are not modelled. *)
Variable R : Type.
Variable status_of : R -> option string.
Variable schema : string -> option (list string * list R).

Definition check_table (t : string) : table_report R :=
  let cols := match schema t with None => [] | Some (c, _) => c end in
  if existsb (String.eqb "status") cols then
    let rows := match schema t with None => [] | Some (_, rs) => rs end in
    match filter (fun r => processing_like (status_of r)) rows with
    | [] => NoProcessingItems t
    | found => ProcessingItems t found
    end
  else NoStatusColumn t.

Definition tables_to_check : list string :=
  ["stories"; "voice_generations"; "story_narrations"; "video_projects";
   "voice_profiles"].

Definition check_processing : list (table_report R) := map check_table tables_to_check.

End Tables.

Lemma ascii_lower_idem a : ascii_lower (ascii_lower a) = ascii_lower a.
Proof.
  unfold ascii_lower.
  destruct ((65 <=? Ascii.nat_of_ascii a)%nat && (Ascii.nat_of_ascii a <=? 90)%nat) eqn:E;
    [|rewrite E; reflexivity].
  apply andb_true_iff in E as [E1 E2]; apply Nat.leb_le in E1, E2.
  rewrite Ascii.nat_ascii_embedding by lia.
  replace ((65 <=? Ascii.nat_of_ascii a + 32)%nat && (Ascii.nat_of_ascii a + 32 <=? 90)%nat)
    with false; [reflexivity|].
  symmetry; apply andb_false_iff; right; apply Nat.leb_gt; lia.
Qed.

Lemma lower_idem s : lower (lower s) = lower s.
Proof. induction s as [|a s IH]; simpl; [reflexivity|]; rewrite ascii_lower_idem, IH; reflexivity. Qed.

End CheckProcessing.

(** X5.  The filter of check_processing.py selects, among the job statuses
    the scripts store, exactly the non-terminal ones ([PENDING],
    [PROCESSING]); it ignores case, and a NULL status never matches. *)
Theorem X5_processing_filter_non_terminal :
  (forall st, CheckProcessing.processing_like (Some (CheckProcessing.status_text st))
              = JobStore.non_terminal st) /\
  (forall s, CheckProcessing.processing_like (Some s)
             = CheckProcessing.processing_like (Some (CheckProcessing.lower s))) /\
  CheckProcessing.processing_like None = false.
Proof.
  split; [|split; [|reflexivity]].
  - intros st; destruct st; vm_compute; reflexivity.
  - intros s; unfold CheckProcessing.processing_like, CheckProcessing.like_contains.
    rewrite CheckProcessing.lower_idem; reflexivity.
Qed.

(** ** ml_api.py and ml_api_v2.py: story generation *)

Module MlApi.

(** A Python [str] as its list of code points. *)
Definition pystr := list Z.

(** An ASCII literal of the source. *)
Definition lit (s : string) : pystr :=
  map (fun a => Z.of_nat (Ascii.nat_of_ascii a)) (list_ascii_of_string s).

(** [str.isspace] for one code point: the characters [str.split()] splits on. *)
Definition py_isspace (c : Z) : bool :=
  ((9 <=? c) && (c <=? 13)) || ((28 <=? c) && (c <=? 32)) || (c =? 133) || (c =? 160)
  || (c =? 5760) || ((8192 <=? c) && (c <=? 8202)) || (c =? 8232) || (c =? 8233)
  || (c =? 8239) || (c =? 8287) || (c =? 12288).

(** [s.split()]: maximal runs of non-space characters; [cur] is the current
    word, reversed. *)
Fixpoint split_aux (cur : pystr) (s : pystr) : list pystr :=
  match s with
  | [] => match cur with [] => [] | _ => [rev cur] end
  | c :: tl =>
      if py_isspace c
      then match cur with [] => split_aux [] tl | _ => rev cur :: split_aux [] tl end
      else split_aux (c :: cur) tl
  end.

Definition py_split (s : pystr) : list pystr := split_aux [] s.

(** ml_api.py [generate_story]: the placeholder text and its word count. *)
Record story_response := {
  text : pystr;
  tokens_used : nat;
  style : option pystr;
  response_status : string
}.

Definition generate_story_v1 (prompt : pystr) (style : option pystr) : story_response :=
  let generated_text := lit "Generated story based on: " ++ prompt in
  {| text := generated_text;
     tokens_used := length (py_split generated_text);
     style := style;
     response_status := "completed" |}.

(** ml_api_v2.py [generate_story]: the system prompt chosen by [style]. *)
Definition system_prompt (style : option pystr) : pystr :=
  let base := lit "You are a creative storyteller helping families create engaging narratives." in
  match style with
  | Some s =>
      if list_eq_dec Z.eq_dec s (lit "narrative") then
        base ++ lit " Write in a warm, narrative style suitable for family stories."
      else if list_eq_dec Z.eq_dec s (lit "documentary") then
        base ++ lit " Write in a documentary style with informative, clear narration."
      else if list_eq_dec Z.eq_dec s (lit "children") then
        base ++ lit " Write in a simple, engaging style suitable for children."
      else base
  | None => base
  end.

(** [f"{system_prompt}\\n\\nUser request: {request.prompt}\\n\\nGenerate a
    compelling story:"]: in the source each [\\n] is a backslash followed by
    [n], two characters. *)
Definition ollama_prompt (style : option pystr) (prompt : pystr) : pystr :=
  system_prompt style ++ lit "\n\nUser request: " ++ prompt
  ++ lit "\n\nGenerate a compelling story:".

(** What the call to Ollama can give: a timeout ([httpx.TimeoutException]),
    another exception of the client, or a reply with its status code and
    body: [None] when the body is not JSON ([response.json()] raises),
    [Some None] when it has no ["response"] key, [Some (Some t)] otherwise. *)
Inductive ollama_outcome :=
| OllamaTimeout
| OllamaFailure
| OllamaReply (status_code : Z) (body : option (option pystr)).

Inductive http_result :=
| HttpOk (r : story_response)
| HttpError (status_code : Z).

(** The handler.  The [HTTPException(502)] raised for a non-200 reply is
    inside the [try], so the later [except Exception] catches it and raises
    [HTTPException(500)] instead. *)
Definition generate_story_v2 (prompt : pystr) (style : option pystr)
  (outcome : ollama_outcome) : http_result :=
  match outcome with
  | OllamaTimeout => HttpError 504
  | OllamaFailure => HttpError 500
  | OllamaReply code body =>
      if negb (code =? 200) then HttpError 500   (* 502, re-raised as 500 *)
      else match body with
           | None => HttpError 500
           | Some response =>
               let generated_text := match response with Some t => t | None => [] end in
               HttpOk {| text := generated_text;
                         tokens_used := length (py_split generated_text);
                         style := style;
                         response_status := "completed" |}
           end
  end.

Lemma split_aux_app a0 sp b cur :
  py_isspace sp = true ->
  split_aux cur ((a0 ++ [sp]) ++ b) = split_aux cur (a0 ++ [sp]) ++ split_aux [] b.
Proof.
  intros Hsp; revert cur; induction a0 as [|c tl IH]; intros cur; simpl.
  - rewrite Hsp; destruct cur; reflexivity.
  - destruct (py_isspace c).
    + destruct cur; [apply IH|simpl; rewrite IH; reflexivity].
    + apply IH.
Qed.

Lemma lit_app s1 s2 : lit (s1 ++ s2) = lit s1 ++ lit s2.
Proof.
  induction s1 as [|a s1 IH]; simpl; [reflexivity|].
  unfold lit in *; simpl; rewrite IH; reflexivity.
Qed.

End MlApi.

Lemma existsb_notin (x : Z) l : existsb (Z.eqb x) l = false -> ~ In x l.
Proof.
  intros H Hin. assert (existsb (Z.eqb x) l = true)
    by (apply existsb_exists; exists x; split; [exact Hin|apply Z.eqb_refl]).
  congruence.
Qed.

(** X7.  ml_api.py's placeholder story is ["Generated story based on: "]
    followed by the prompt, and its [tokens_used] is 4 plus the number of
    words [prompt.split()] finds (the prefix ends with a space, so no word of
    the prompt is glued to ["on:"]). *)
Theorem X7_v1_tokens_used prompt style :
  MlApi.text (MlApi.generate_story_v1 prompt style)
  = MlApi.lit "Generated story based on: " ++ prompt /\
  MlApi.tokens_used (MlApi.generate_story_v1 prompt style)
  = (4 + length (MlApi.py_split prompt))%nat.
Proof.
  split; [reflexivity|]. unfold MlApi.generate_story_v1; cbn [MlApi.tokens_used].
  replace (MlApi.lit "Generated story based on: ")
    with (MlApi.lit "Generated story based on:" ++ [32]) by reflexivity.
  unfold MlApi.py_split; rewrite MlApi.split_aux_app by reflexivity.
  rewrite length_app; reflexivity.
Qed.

(** X8.  ml_api_v2.py's [generate_story] never answers 502: a non-200 reply
    of Ollama gives 500 (the 502 raised inside the [try] is caught by the
    generic handler), a timeout gives 504; a 200 reply without a
    ["response"] key gives an empty story with 0 tokens. *)
Theorem X8_v2_error_codes :
  (forall prompt style outcome,
     MlApi.generate_story_v2 prompt style outcome <> MlApi.HttpError 502) /\
  (forall prompt style code body, code <> 200 ->
     MlApi.generate_story_v2 prompt style (MlApi.OllamaReply code body) = MlApi.HttpError 500) /\
  (forall prompt style,
     MlApi.generate_story_v2 prompt style MlApi.OllamaTimeout = MlApi.HttpError 504) /\
  (forall prompt style,
     exists r, MlApi.generate_story_v2 prompt style (MlApi.OllamaReply 200 (Some None))
               = MlApi.HttpOk r /\ MlApi.text r = [] /\ MlApi.tokens_used r = 0%nat).
Proof.
  split; [|split; [|split]].
  - intros prompt style [| |code [[t|]|]]; simpl;
      try (destruct (negb (code =? 200))); discriminate.
  - intros prompt style code body Hc; simpl.
    apply Z.eqb_neq in Hc; rewrite Hc; reflexivity.
  - reflexivity.
  - intros prompt style; eexists; split; [reflexivity|split; reflexivity].
Qed.

(** X9.  The prompt ml_api_v2.py sends to Ollama contains a newline only if
    the user's prompt does: the separators written [\\n] in the source are the
    two characters backslash and [n]. *)
Theorem X9_v2_prompt_no_newline style prompt :
  (In 10 (MlApi.ollama_prompt style prompt) <-> In 10 prompt) /\
  exists a b, MlApi.ollama_prompt style prompt = a ++ [92; 110] ++ b.
Proof.
  assert (Hsys : ~ In 10 (MlApi.system_prompt style)).
  { apply existsb_notin; unfold MlApi.system_prompt.
    destruct style as [s|]; [|reflexivity].
    destruct (list_eq_dec Z.eq_dec s (MlApi.lit "narrative")); [reflexivity|].
    destruct (list_eq_dec Z.eq_dec s (MlApi.lit "documentary")); [reflexivity|].
    destruct (list_eq_dec Z.eq_dec s (MlApi.lit "children")); reflexivity. }
  split.
  - unfold MlApi.ollama_prompt; rewrite !in_app_iff; split.
    + intros [H|[H|[H|H]]]; [contradiction| |exact H|];
        apply existsb_notin in H; [contradiction|reflexivity| |reflexivity]; contradiction.
    + intros H; right; right; left; exact H.
  - exists (MlApi.system_prompt style),
      (MlApi.lit "\nUser request: " ++ prompt ++ MlApi.lit "\n\nGenerate a compelling story:").
    reflexivity.
Qed.

(** ** ml_api.py / ml_api_v2.py: [upload_voice_samples] *)

Module Upload.
Section Upload.

(** Paths, file names and file contents are kept abstract; [join] is
    pathlib's [/] and the file system maps a path to its content.  [mkdir_ok]
    and [writable] say whether [profile_dir.mkdir(...)] and
    [open(file_path, "wb")] succeed.  A successful [open(..., "wb")]
    truncates the file: it then holds [empty].  [write_ok p c] says whether
    [f.write(c)] succeeds; when it raises, the file holds [partial p c]. *)
Variables (P N C : Type).
Variable P_eq_dec : forall x y : P, {x = y} + {x <> y}.
Variable join : P -> N -> P.
Variable mkdir_ok : P -> bool.
Variable writable : P -> bool.
Variable empty : C.
Variable write_ok : P -> C -> bool.
Variable partial : P -> C -> C.

Definition fs := P -> option C.

Definition write (m : fs) (p : P) (c : C) : fs :=
  fun q => if P_eq_dec q p then Some c else m q.

(** [for file in files: file_path = profile_dir / file.filename; with
    open(file_path, "wb") as f: content = await file.read(); f.write(content)].
    An upload is its file name ([None]: missing, so [profile_dir / None]
    raises) and its body ([None]: [file.read()] raises).  On an exception
    the loop stops ([inl] with the file system as it is then); otherwise
    [inr] with the file system and [saved_files]. *)
Fixpoint upload_loop (dir : P) (files : list (option N * option C)) (m : fs)
  : fs + (fs * list P) :=
  match files with
  | [] => inr (m, [])
  | (None, _) :: _ => inl m
  | (Some n, body) :: tl =>
      let p := join dir n in
      if writable p then
        match body with
        | None => inl (write m p empty)
        | Some c =>
            if write_ok p c then
              match upload_loop dir tl (write m p c) with
              | inl m' => inl m'
              | inr (m', saved) => inr (m', p :: saved)
              end
            else inl (write m p (partial p c))
        end
      else inl m
  end.

Inductive upload_result :=
| UploadError500 (m : fs)
| UploadOk (profile_dir : P) (files_uploaded : nat) (m : fs).

(** [profile_dir = UPLOADS_DIR / profile_id] is computed by the caller;
    [profile_id] comes from [uuid.uuid4()]. *)
Definition upload_voice_samples (profile_dir : P) (files : list (option N * option C))
  (m : fs) : upload_result :=
  if mkdir_ok profile_dir then
    match upload_loop profile_dir files m with
    | inl m' => UploadError500 m'
    | inr (m', saved) => UploadOk profile_dir (length saved) m'
    end
  else UploadError500 m.

(** The writes of a list of named uploads, in order. *)
Fixpoint write_all (dir : P) (files : list (N * C)) (m : fs) : fs :=
  match files with
  | [] => m
  | (n, c) :: tl => write_all dir tl (write m (join dir n) c)
  end.

(** The content of the last upload written to [p], if any. *)
Fixpoint last_upload (dir : P) (files : list (N * C)) (p : P) : option C :=
  match files with
  | [] => None
  | (n, c) :: tl =>
      match last_upload dir tl p with
      | Some c' => Some c'
      | None => if P_eq_dec p (join dir n) then Some c else None
      end
  end.

(** The uploads with both a file name and a readable body. *)
Definition named (files : list (option N * option C)) : list (N * C) :=
  flat_map (fun f => match f with (Some n, Some c) => [(n, c)] | _ => [] end) files.

Lemma write_all_lookup dir files m p :
  write_all dir files m p =
  match last_upload dir files p with Some c => Some c | None => m p end.
Proof.
  revert m; induction files as [|[n c] tl IH]; intros m; simpl; [reflexivity|].
  rewrite IH. destruct (last_upload dir tl p); [reflexivity|].
  unfold write; destruct (P_eq_dec p (join dir n)); reflexivity.
Qed.

Lemma upload_loop_ok dir files m m' saved :
  upload_loop dir files m = inr (m', saved) ->
  length saved = length files /\ m' = write_all dir (named files) m.
Proof.
  revert m m' saved;
    induction files as [|[[n|] [c|]] tl IH]; intros m m' saved H; simpl in H.
  - injection H as <- <-; auto.
  - destruct (writable (join dir n)); [|discriminate].
    destruct (write_ok (join dir n) c); [|discriminate].
    destruct (upload_loop dir tl (write m (join dir n) c)) as [m1|[m1 s1]] eqn:E;
      [discriminate|].
    injection H as <- <-. destruct (IH _ _ _ E) as [H1 H2]; simpl; auto.
  - destruct (writable (join dir n)); discriminate.
  - discriminate.
  - discriminate.
Qed.

(** What the failing upload leaves at its own path. *)
Definition failing_path_ok (dir : P) (f : option N * option C) (m0 m' : fs) : Prop :=
  forall n b, f = (Some n, b) ->
    let p := join dir n in
    (writable p = false -> m' p = m0 p) /\
    (writable p = true -> b = None -> m' p = Some empty) /\
    (writable p = true -> forall c, b = Some c ->
       write_ok p c = false /\ m' p = Some (partial p c)).

Lemma upload_loop_err dir files m m' :
  upload_loop dir files m = inl m' ->
  exists k f, nth_error files k = Some f /\
    let m0 := write_all dir (named (firstn k files)) m in
    (forall q, (forall n b, f = (Some n, b) -> q <> join dir n) -> m' q = m0 q) /\
    failing_path_ok dir f m0 m'.
Proof.
  unfold failing_path_ok.
  revert m m'; induction files as [|[[n|] b] tl IH]; intros m m' H; simpl in H.
  - discriminate.
  - destruct (writable (join dir n)) eqn:Hw.
    + destruct b as [c|].
      * destruct (write_ok (join dir n) c) eqn:Hok.
        -- destruct (upload_loop dir tl (write m (join dir n) c)) as [m1|[m1 s1]] eqn:E;
             [|discriminate].
           injection H as <-. destruct (IH _ _ E) as (k & f & Hk & Hfr & Hfp).
           exists (S k), f; simpl; split; [exact Hk|split; [exact Hfr|exact Hfp]].
        -- injection H as <-. exists 0%nat, (Some n, Some c); simpl.
           split; [reflexivity|split].
           ++ intros q Hq; unfold write.
              destruct (P_eq_dec q (join dir n)) as [e|]; [|reflexivity].
              exfalso; exact (Hq n (Some c) eq_refl e).
           ++ intros n' b' Hf; injection Hf as <- <-; split; [congruence|split];
                [discriminate|].
              intros _ c' Hc; injection Hc as <-; split; [exact Hok|].
              unfold write; destruct (P_eq_dec _ _); [reflexivity|congruence].
      * injection H as <-. exists 0%nat, (Some n, None); simpl.
        split; [reflexivity|split].
        -- intros q Hq; unfold write.
           destruct (P_eq_dec q (join dir n)) as [e|]; [|reflexivity].
           exfalso; exact (Hq n None eq_refl e).
        -- intros n' b' Hf; injection Hf as <- <-; split; [congruence|split];
             [|discriminate].
           intros _ _; unfold write; destruct (P_eq_dec _ _); [reflexivity|congruence].
    + injection H as <-. exists 0%nat, (Some n, b); simpl.
      split; [reflexivity|split; [reflexivity|]].
      intros n' b' Hf; injection Hf as <- <-; split; [reflexivity|split]; congruence.
  - injection H as <-. exists 0%nat, (None, b); simpl.
    split; [reflexivity|split; [reflexivity|]].
    intros n' b' Hf; discriminate.
Qed.

End Upload.
End Upload.

(** X10 (upload_voice_samples, success): when the upload answers with a
    profile, [files_uploaded] is the number of uploads received and every
    path under the profile directory holds the content of the last upload
    with that name; uploads sharing a file name are each counted although
    only the last one is kept. *)
Theorem X10_upload_success_counts_uploads
  (P N C : Type) (P_eq_dec : forall x y : P, {x = y} + {x <> y})
  (join : P -> N -> P) (mkdir_ok writable : P -> bool)
  (empty : C) (write_ok : P -> C -> bool) (partial : P -> C -> C)
  (dir : P) (files : list (option N * option C)) (m : Upload.fs P C)
  (d : P) (k : nat) (m' : Upload.fs P C) :
  Upload.upload_voice_samples P N C P_eq_dec join mkdir_ok writable empty write_ok partial
    dir files m = Upload.UploadOk P C d k m' ->
  d = dir /\ k = length files /\
  forall p, m' p =
    match Upload.last_upload P N C P_eq_dec join dir (Upload.named N C files) p with
    | Some c => Some c
    | None => m p
    end.
Proof.
  unfold Upload.upload_voice_samples; intros H.
  destruct (mkdir_ok dir); [|discriminate].
  destruct (Upload.upload_loop P N C P_eq_dec join writable empty write_ok partial dir files m)
    as [m1|[m1 saved]] eqn:E; [discriminate|].
  injection H as <- <- <-.
  destruct (Upload.upload_loop_ok P N C P_eq_dec join writable empty write_ok partial
              dir files m m1 saved E) as [Hl ->].
  split; [reflexivity|split; [exact Hl|]].
  intros p; apply Upload.write_all_lookup.
Qed.

(** X11 (upload_voice_samples, failure): when the upload answers 500, there
    is no rollback.  The upload at position [k] failed (when the profile
    directory was created); every path other than its own holds what the
    first [k] uploads wrote.  Its own path keeps its earlier content only
    when [open(..., "wb")] failed; when [file.read()] raised, the file was
    truncated to [empty], and when [f.write] raised, it holds the partial
    write.  Either way an earlier upload with the same name is lost. *)
Theorem X11_upload_failure_no_rollback
  (P N C : Type) (P_eq_dec : forall x y : P, {x = y} + {x <> y})
  (join : P -> N -> P) (mkdir_ok writable : P -> bool)
  (empty : C) (write_ok : P -> C -> bool) (partial : P -> C -> C)
  (dir : P) (files : list (option N * option C)) (m m' : Upload.fs P C) :
  Upload.upload_voice_samples P N C P_eq_dec join mkdir_ok writable empty write_ok partial
    dir files m = Upload.UploadError500 P C m' ->
  (mkdir_ok dir = false -> m' = m) /\
  (mkdir_ok dir = true ->
   exists k f, nth_error files k = Some f /\
     let m0 := Upload.write_all P N C P_eq_dec join dir (Upload.named N C (firstn k files)) m in
     (forall q, (forall n b, f = (Some n, b) -> q <> join dir n) -> m' q = m0 q) /\
     Upload.failing_path_ok P N C join writable empty write_ok partial dir f m0 m').
Proof.
  unfold Upload.upload_voice_samples; intros H.
  destruct (mkdir_ok dir) eqn:Hd.
  - destruct (Upload.upload_loop P N C P_eq_dec join writable empty write_ok partial dir files m)
      as [m1|[m1 saved]] eqn:E; [|discriminate].
    injection H as <-. split; [discriminate|intros _].
    exact (Upload.upload_loop_err P N C P_eq_dec join writable empty write_ok partial
             dir files m m1 E).
  - injection H as <-. split; [reflexivity|discriminate].
Qed.

Definition upload_join (d n : string) : string := (d ++ "/" ++ n)%string.

Lemma X10_witness :
  exists m',
    Upload.upload_voice_samples string string nat string_dec upload_join
      (fun _ => true) (fun _ => true) 0%nat (fun _ _ => true) (fun _ c => c)
      "uploads/p1"%string
      [(Some "a.wav"%string, Some 1%nat); (Some "a.wav"%string, Some 2%nat)] (fun _ => None)
    = Upload.UploadOk string nat "uploads/p1"%string 2 m' /\
    m' "uploads/p1/a.wav"%string = Some 2%nat /\
    ("uploads/p1"%string = "uploads/p1"%string /\ 2%nat = 2%nat /\
     forall p, m' p =
       match Upload.last_upload string string nat string_dec upload_join "uploads/p1"%string
               (Upload.named string nat
                  [(Some "a.wav"%string, Some 1%nat); (Some "a.wav"%string, Some 2%nat)]) p with
       | Some c => Some c
       | None => None
       end).
Proof.
  eexists; split; [reflexivity|split; [reflexivity|]].
  apply (X10_upload_success_counts_uploads string string nat string_dec upload_join
           (fun _ => true) (fun _ => true) 0%nat (fun _ _ => true) (fun _ c => c)
           "uploads/p1"%string
           [(Some "a.wav"%string, Some 1%nat); (Some "a.wav"%string, Some 2%nat)]
           (fun _ => None)).
  reflexivity.
Defined.

(** Two uploads named [a.wav]; reading the second one raises.  The 500
    leaves [uploads/p1/a.wav] truncated: the first upload is lost. *)
Lemma X11_witness :
  exists m',
    Upload.upload_voice_samples string string nat string_dec upload_join
      (fun _ => true) (fun _ => true) 0%nat (fun _ _ => true) (fun _ c => c)
      "uploads/p1"%string
      [(Some "a.wav"%string, Some 1%nat); (Some "a.wav"%string, None)] (fun _ => None)
    = Upload.UploadError500 string nat m' /\
    m' "uploads/p1/a.wav"%string = Some 0%nat /\
    ((true = false -> m' = (fun _ => None)) /\
     (true = true ->
      exists k f, nth_error [(Some "a.wav"%string, Some 1%nat); (Some "a.wav"%string, None)] k
                  = Some f /\
        let m0 := Upload.write_all string string nat string_dec upload_join "uploads/p1"%string
                    (Upload.named string nat
                       (firstn k [(Some "a.wav"%string, Some 1%nat);
                                  (Some "a.wav"%string, None)])) (fun _ => None) in
        (forall q, (forall n b, f = (Some n, b) -> q <> upload_join "uploads/p1"%string n) ->
           m' q = m0 q) /\
        Upload.failing_path_ok string string nat upload_join (fun _ => true) 0%nat
          (fun _ _ => true) (fun _ c => c) "uploads/p1"%string f m0 m')).
Proof.
  eexists; split; [reflexivity|split; [reflexivity|]].
  apply (X11_upload_failure_no_rollback string string nat string_dec upload_join
           (fun _ => true) (fun _ => true) 0%nat (fun _ _ => true) (fun _ c => c)
           "uploads/p1"%string
           [(Some "a.wav"%string, Some 1%nat); (Some "a.wav"%string, None)] (fun _ => None)).
  reflexivity.
Defined.

(** ** scripts/f5_server.py: [synthesize] *)

From Stdlib Require Import QArith.
Open Scope Z_scope.

Module F5Server.
Local Open Scope string_scope.

Record SynthesizeRequest := {
  text : string;
  voice_ref_path : string;
  output_path : string;
  remove_silence : bool
}.

Inductive synth_result :=
| SynthError400 (detail : string)
| SynthError500
| SynthesizeResponse (audio_url : string) (duration_sec : Q) (status : string).

Section Synthesize.

(** [M] is the loaded F5-TTS model ([model] is [None] until [load_model]
    ran).  [path_exists] is [os.path.exists]; [infer] is [model.infer(...)],
    giving the length of [wav] and [sample_rate], or [None] when it raises;
    [write_ok] says whether [os.makedirs] and [sf.write] succeed on a path. *)
Variable M : Type.
Variable path_exists : string -> bool.
Variable infer : M -> SynthesizeRequest -> option (Z * Z).
Variable write_ok : string -> bool.

(** The response and the list of paths written by [sf.write].  The division
    [len(wav) / sample_rate] runs after the file is written; a zero sample
    rate raises [ZeroDivisionError], which [except Exception] turns into a
    500. *)
Definition synthesize (model : option M) (request : SynthesizeRequest)
  (written : list string) : synth_result * list string :=
  match model with
  | None => (SynthError500, written)
  | Some mdl =>
      if negb (path_exists (voice_ref_path request)) then
        (SynthError400 ("Voice reference file not found: " ++ voice_ref_path request),
         written)
      else
        match infer mdl request with
        | None => (SynthError500, written)
        | Some (len_wav, sample_rate) =>
            if write_ok (output_path request) then
              let written' := output_path request :: written in
              if Z.eqb sample_rate 0 then (SynthError500, written')
              else (SynthesizeResponse (output_path request)
                      (inject_Z len_wav / inject_Z sample_rate) "success", written')
            else (SynthError500, written)
        end
  end.

End Synthesize.
End F5Server.

(** ** scripts/rvc_server.py: [convert] *)

Module RvcServer.
Local Open Scope string_scope.

Record ConvertRequest := {
  guide_audio_path : string;
  voice_model_path : string;
  output_path : string;
  f0_method : string;
  pitch_change : Z
}.

Inductive convert_result (D : Type) :=
| ConvertError400 (detail : string)
| ConvertError500
| ConvertResponse (audio_url : string) (duration_sec : D) (status : string).

Arguments ConvertError400 {D}.
Arguments ConvertError500 {D}.
Arguments ConvertResponse {D}.

Section Convert.

(** [import_ok] says whether [from rvc_python.infer import RVCInference]
    succeeds; [run] is [RVCInference(...)], [load_model], [infer_file] and
    [sf.info(...).duration], [None] when one of them raises.  The
    [HTTPException(500)] of a failed import is raised inside the [try] and
    caught by its [except Exception], which raises a 500 again. *)
Variable D : Type.
Variable path_exists : string -> bool.
Variable import_ok : bool.
Variable run : ConvertRequest -> option D.

Definition convert (request : ConvertRequest) : convert_result D :=
  if negb (path_exists (guide_audio_path request)) then
    ConvertError400 ("Guide audio file not found: " ++ guide_audio_path request)
  else if negb (path_exists (voice_model_path request)) then
    ConvertError400 ("Voice model file not found: " ++ voice_model_path request)
  else if negb import_ok then ConvertError500
  else match run request with
       | None => ConvertError500
       | Some duration => ConvertResponse (output_path request) duration "success"
       end.

End Convert.
End RvcServer.

(** ** ml_api.py: [synthesize_f5] and [convert_rvc] (mock implementations) *)

Module MlApiMedia.
Local Open Scope string_scope.

Definition BASE_DIR := "/opt/ml-api".
Definition UPLOADS_DIR := BASE_DIR ++ "/uploads".
Definition MODELS_DIR := BASE_DIR ++ "/models".
Definition TEMP_DIR := BASE_DIR ++ "/temp".

(** pathlib's [/]. *)
Definition path_join (d n : string) : string := d ++ "/" ++ n.

Inductive media_result :=
| MediaError500
| MediaResponse (status : string) (url : string) (duration_sec : Q).

Section Media.

(** [B] is file content; [writable] says whether [open(path, "wb")] (or the
    destination side of [shutil.copy]) succeeds. *)
Variable B : Type.
Variable writable : string -> bool.

Definition fs := string -> option B.

Definition write (m : fs) (p : string) (b : B) : fs :=
  fun q => if string_dec q p then Some b else m q.

(** [with open(p, "wb") as f: f.write(b)]. *)
Definition save (m : fs) (p : string) (b : B) : option fs :=
  if writable p then Some (write m p b) else None.

(** [shutil.copy(src, dst)]: raises when [src] does not exist. *)
Definition copy (m : fs) (src dst : string) : option fs :=
  match m src with
  | None => None
  | Some b => save m dst b
  end.

(** [u1], [u2] (and [u3]) are the successive [uuid.uuid4()] values.  The
    response and the file system when the handler returns or raises. *)
Definition synthesize_f5 (text : string) (voice_ref : B) (remove_silence : bool)
  (u1 u2 : string) (m : fs) : media_result * fs :=
  let ref_path := path_join TEMP_DIR ("ref_" ++ u1 ++ ".wav") in
  match save m ref_path voice_ref with
  | None => (MediaError500, m)
  | Some m1 =>
      let output_filename := "f5_" ++ u2 ++ ".wav" in
      let output_path := path_join TEMP_DIR output_filename in
      match copy m1 ref_path output_path with
      | None => (MediaError500, m1)
      | Some m2 => (MediaResponse "success" ("/temp/" ++ output_filename) 5, m2)
      end
  end.

Definition convert_rvc (guide_audio voice_model : B) (pitch_change : Q)
  (u1 u2 u3 : string) (m : fs) : media_result * fs :=
  let guide_path := path_join TEMP_DIR ("guide_" ++ u1 ++ ".wav") in
  match save m guide_path guide_audio with
  | None => (MediaError500, m)
  | Some m1 =>
      let model_path := path_join MODELS_DIR ("model_" ++ u2 ++ ".pth") in
      match save m1 model_path voice_model with
      | None => (MediaError500, m1)
      | Some m2 =>
          let output_filename := "rvc_" ++ u3 ++ ".wav" in
          let output_path := path_join TEMP_DIR output_filename in
          match copy m2 guide_path output_path with
          | None => (MediaError500, m2)
          | Some m3 => (MediaResponse "success" ("/temp/" ++ output_filename) 5, m3)
          end
      end
  end.

End Media.

Lemma write_same (B : Type) (m : fs B) p b : write B m p b p = Some b.
Proof. unfold write; destruct (string_dec p p); congruence. Qed.

Lemma write_other (B : Type) (m : fs B) p q b : q <> p -> write B m p b q = m q.
Proof. intros H; unfold write; destruct (string_dec q p); congruence. Qed.

Lemma guide_model_paths u1 u2 :
  path_join TEMP_DIR ("guide_" ++ u1 ++ ".wav")
  <> path_join MODELS_DIR ("model_" ++ u2 ++ ".pth").
Proof. unfold path_join, TEMP_DIR, MODELS_DIR, BASE_DIR; simpl; discriminate. Qed.

Lemma model_output_paths u2 u3 :
  path_join MODELS_DIR ("model_" ++ u2 ++ ".pth")
  <> path_join TEMP_DIR ("rvc_" ++ u3 ++ ".wav").
Proof. unfold path_join, TEMP_DIR, MODELS_DIR, BASE_DIR; simpl; discriminate. Qed.

Lemma ref_output_paths u1 u2 :
  path_join TEMP_DIR ("f5_" ++ u2 ++ ".wav")
  <> path_join TEMP_DIR ("ref_" ++ u1 ++ ".wav").
Proof. unfold path_join, TEMP_DIR, BASE_DIR; simpl; discriminate. Qed.

End MlApiMedia.

(** ** check_recent.py: the age column *)

Module CheckRecent.

(** [diff = current_ts - story_ts if story_ts else 0]: [None] is SQL NULL,
    and the integer 0 is false in Python. *)
Definition diff (current_ts : Z) (story_ts : option Z) : Z :=
  match story_ts with
  | Some t => if Z.eqb t 0 then 0 else current_ts - t
  | None => 0
  end.

End CheckRecent.

(** X12 (f5_server.synthesize): an unloaded model answers 500 even when
    the reference file is missing; a missing reference file answers 400
    naming it, before any inference or write; a zero sample rate answers 500
    although the output file has already been written; a success returns the
    requested output path, writes it, and has duration
    [len(wav) / sample_rate] with a non-zero sample rate. *)
Theorem X12_f5_synthesize_outcomes
  (M : Type) (path_exists : string -> bool)
  (infer : M -> F5Server.SynthesizeRequest -> option (Z * Z)) (write_ok : string -> bool) :
  (forall request written,
     F5Server.synthesize M path_exists infer write_ok None request written
     = (F5Server.SynthError500, written)) /\
  (forall mdl request written,
     path_exists (F5Server.voice_ref_path request) = false ->
     F5Server.synthesize M path_exists infer write_ok (Some mdl) request written
     = (F5Server.SynthError400
          ("Voice reference file not found: " ++ F5Server.voice_ref_path request)%string,
        written)) /\
  (forall mdl request written len_wav,
     path_exists (F5Server.voice_ref_path request) = true ->
     infer mdl request = Some (len_wav, 0) ->
     write_ok (F5Server.output_path request) = true ->
     F5Server.synthesize M path_exists infer write_ok (Some mdl) request written
     = (F5Server.SynthError500, F5Server.output_path request :: written)) /\
  (forall model request written url dur st written',
     F5Server.synthesize M path_exists infer write_ok model request written
     = (F5Server.SynthesizeResponse url dur st, written') ->
     url = F5Server.output_path request /\ st = "success"%string /\
     written' = F5Server.output_path request :: written /\
     exists mdl len_wav sample_rate,
       model = Some mdl /\ infer mdl request = Some (len_wav, sample_rate) /\
       sample_rate <> 0 /\ dur = (inject_Z len_wav / inject_Z sample_rate)%Q).
Proof.
  unfold F5Server.synthesize; split; [|split; [|split]].
  - reflexivity.
  - intros mdl request written H; rewrite H; reflexivity.
  - intros mdl request written len_wav He Hi Hw; rewrite He, Hi, Hw; reflexivity.
  - intros [mdl|] request written url dur st written' H; [|discriminate].
    destruct (path_exists (F5Server.voice_ref_path request)); [|discriminate].
    destruct (infer mdl request) as [[len_wav sample_rate]|] eqn:Hi; [|discriminate].
    destruct (write_ok (F5Server.output_path request)); [|discriminate].
    destruct (Z.eqb_spec sample_rate 0); [discriminate|].
    injection H as <- <- <- <-.
    split; [reflexivity|split; [reflexivity|split; [reflexivity|]]].
    exists mdl, len_wav, sample_rate; auto.
Qed.

(** X13 (rvc_server.convert): the answer is 400 exactly when the guide
    audio or the voice model file is missing, the guide being reported
    first; once both exist every failure, a missing [rvc_python] included,
    is a 500; a success returns the requested output path and needs both
    files, the library and a run that did not raise. *)
Theorem X13_rvc_convert_outcomes
  (D : Type) (path_exists : string -> bool) (import_ok : bool)
  (run : RvcServer.ConvertRequest -> option D) :
  (forall request detail,
     RvcServer.convert D path_exists import_ok run request = RvcServer.ConvertError400 detail <->
     (path_exists (RvcServer.guide_audio_path request) = false /\
      detail = ("Guide audio file not found: " ++ RvcServer.guide_audio_path request)%string) \/
     (path_exists (RvcServer.guide_audio_path request) = true /\
      path_exists (RvcServer.voice_model_path request) = false /\
      detail = ("Voice model file not found: " ++ RvcServer.voice_model_path request)%string)) /\
  (forall request,
     path_exists (RvcServer.guide_audio_path request) = true ->
     path_exists (RvcServer.voice_model_path request) = true ->
     RvcServer.convert D path_exists import_ok run request = RvcServer.ConvertError500 \/
     exists duration, RvcServer.convert D path_exists import_ok run request
                      = RvcServer.ConvertResponse (RvcServer.output_path request) duration "success"%string) /\
  (forall request url duration st,
     RvcServer.convert D path_exists import_ok run request
     = RvcServer.ConvertResponse url duration st ->
     url = RvcServer.output_path request /\ st = "success"%string /\
     path_exists (RvcServer.guide_audio_path request) = true /\
     path_exists (RvcServer.voice_model_path request) = true /\
     import_ok = true /\ run request = Some duration).
Proof.
  unfold RvcServer.convert; split; [|split].
  - intros request detail.
    destruct (path_exists (RvcServer.guide_audio_path request));
      destruct (path_exists (RvcServer.voice_model_path request));
      destruct import_ok; try destruct (run request); simpl;
      split; intros H;
      try (injection H as <-); try discriminate;
      intuition (try discriminate; subst; reflexivity).
  - intros request Hg Hm; rewrite Hg, Hm; simpl.
    destruct import_ok; simpl; [|left; reflexivity].
    destruct (run request) as [d|]; [right; exists d; reflexivity|left; reflexivity].
  - intros request url duration st H.
    destruct (path_exists (RvcServer.guide_audio_path request)); [|discriminate].
    destruct (path_exists (RvcServer.voice_model_path request)); [|discriminate].
    destruct import_ok; [|discriminate].
    destruct (run request); [|discriminate].
    injection H as <- <- <-; repeat split.
Qed.

(** X14 (ml_api.synthesize_f5, ml_api.convert_rvc): the mock endpoints
    return a copy of their input: a successful F5 synthesis leaves at its
    URL's file the uploaded voice reference, whatever the text; a
    successful RVC conversion leaves at its URL's file the uploaded guide
    audio, whatever the voice model and pitch, and keeps the uploaded model
    under [MODELS_DIR]. *)
Theorem X14_mock_media_copies_input (B : Type) (writable : string -> bool) :
  (forall text voice_ref remove_silence u1 u2 m st url dur m',
     MlApiMedia.synthesize_f5 B writable text voice_ref remove_silence u1 u2 m
     = (MlApiMedia.MediaResponse st url dur, m') ->
     url = ("/temp/f5_" ++ u2 ++ ".wav")%string /\
     m' (MlApiMedia.path_join MlApiMedia.TEMP_DIR ("f5_" ++ u2 ++ ".wav")) = Some voice_ref /\
     m' (MlApiMedia.path_join MlApiMedia.TEMP_DIR ("ref_" ++ u1 ++ ".wav")) = Some voice_ref) /\
  (forall guide_audio voice_model pitch_change u1 u2 u3 m st url dur m',
     MlApiMedia.convert_rvc B writable guide_audio voice_model pitch_change u1 u2 u3 m
     = (MlApiMedia.MediaResponse st url dur, m') ->
     url = ("/temp/rvc_" ++ u3 ++ ".wav")%string /\
     m' (MlApiMedia.path_join MlApiMedia.TEMP_DIR ("rvc_" ++ u3 ++ ".wav")) = Some guide_audio /\
     m' (MlApiMedia.path_join MlApiMedia.MODELS_DIR ("model_" ++ u2 ++ ".pth")) = Some voice_model).
Proof.
  split.
  - intros text voice_ref remove_silence u1 u2 m st url dur m' H.
    unfold MlApiMedia.synthesize_f5, MlApiMedia.save, MlApiMedia.copy in H.
    destruct (writable _); [|discriminate].
    rewrite MlApiMedia.write_same in H; unfold MlApiMedia.save in H.
    destruct (writable _); [|discriminate].
    injection H as <- <- <- <-.
    split; [reflexivity|split].
    + apply MlApiMedia.write_same.
    + rewrite MlApiMedia.write_other by (apply not_eq_sym, MlApiMedia.ref_output_paths).
      apply MlApiMedia.write_same.
  - intros guide_audio voice_model pitch_change u1 u2 u3 m st url dur m' H.
    unfold MlApiMedia.convert_rvc, MlApiMedia.save, MlApiMedia.copy in H.
    destruct (writable _); [|discriminate].
    destruct (writable _); [|discriminate].
    rewrite MlApiMedia.write_other in H by (apply MlApiMedia.guide_model_paths).
    rewrite MlApiMedia.write_same in H; unfold MlApiMedia.save in H.
    destruct (writable _); [|discriminate].
    injection H as <- <- <- <-.
    split; [reflexivity|split].
    + apply MlApiMedia.write_same.
    + rewrite MlApiMedia.write_other by (apply MlApiMedia.model_output_paths).
      apply MlApiMedia.write_same.
Qed.

(** X15 (check_recent.py): the reported age [Diff] is 0 for a NULL and for
    a 0 timestamp, the same as for a row created at the current second; it
    is [current_ts - created_at] for any other timestamp, and so negative
    for a timestamp later than the current one. *)
Theorem X15_recent_diff_zero_cases (current_ts : Z) :
  CheckRecent.diff current_ts None = 0 /\
  CheckRecent.diff current_ts (Some 0) = 0 /\
  CheckRecent.diff current_ts (Some current_ts) = 0 /\
  (forall t, t <> 0 -> CheckRecent.diff current_ts (Some t) = current_ts - t) /\
  (forall t, current_ts < t -> CheckRecent.diff current_ts (Some t) < 0 <-> t <> 0).
Proof.
  unfold CheckRecent.diff; split; [reflexivity|split; [reflexivity|split; [|split]]].
  - destruct (Z.eqb_spec current_ts 0); lia.
  - intros t Ht; destruct (Z.eqb_spec t 0); lia.
  - intros t Ht; destruct (Z.eqb_spec t 0); split; lia.
Qed.

(** X16 (check_processing.py): the report never depends on the
    [story_audio] table, the table whose stuck jobs [recover_audio.py] and
    [reset_stuck_audio.py] repair: two databases that differ only in
    [story_audio] give the same report. *)
Theorem X16_check_processing_ignores_story_audio
  (R : Type) (status_of : R -> option string)
  (schema1 schema2 : string -> option (list string * list R))
  (Hsame : forall t, t <> "story_audio"%string -> schema1 t = schema2 t) :
  CheckProcessing.check_processing R status_of schema1
  = CheckProcessing.check_processing R status_of schema2.
Proof.
  unfold CheckProcessing.check_processing.
  apply map_ext_in; intros t Ht.
  unfold CheckProcessing.check_table.
  rewrite (Hsame t); [reflexivity|].
  intros ->; vm_compute in Ht; intuition discriminate.
Qed.

Definition audio_only_schema (t : string) : option (list string * list string) :=
  if String.eqb t "story_audio" then Some (["id"; "status"]%string, ["PROCESSING"]%string)
  else None.

Lemma X16_witness :
  (forall t, t <> "story_audio"%string -> audio_only_schema t = (fun _ => None) t) /\
  CheckProcessing.check_processing string Some audio_only_schema
  = CheckProcessing.check_processing string Some (fun _ => None).
Proof.
  split.
  - intros t Ht; unfold audio_only_schema.
    destruct (String.eqb_spec t "story_audio"); [contradiction|reflexivity].
  - apply (X16_check_processing_ignores_story_audio string Some audio_only_schema (fun _ => None)).
    intros t Ht; unfold audio_only_schema.
    destruct (String.eqb_spec t "story_audio"); [contradiction|reflexivity].
Defined.
